(** * Cough classification service: a shallow embedding of backend/main.py

    The service decodes an audio recording, normalises it to a fixed
    length, extracts a vector of acoustic statistics, scales it and asks a
    trained classifier for a label and a probability.  This file embeds the
    Python module function by function:

    - Python floats are IEEE binary64 values, [spec_float] with precision 53
      and maximal exponent 1024, so products and [round] are bit exact;
    - exceptions are values of type [exn], a computation that may raise
      returns a [result];
    - [print], the temporary file and the file system are effects on a
      [World] that every effectful function threads;
    - librosa, numpy, base64 and the pickled artifacts are interfaces
      (type classes): the module only calls them. *)

From Stdlib Require Import ZArith String Ascii DecimalString Lia Bool.
From Stdlib Require Import Floats.SpecFloat.
From stdpp Require Import gmap strings list.
From Stdlib Require Import QArith Qabs.

Open Scope Z_scope.

(** ** Python floats *)

Module Float.

Definition prec : Z := 53.
Definition emax : Z := 1024.

Definition float := spec_float.

Definition mul : float -> float -> float := SFmul prec emax.
Definition div : float -> float -> float := SFdiv prec emax.
Definition sub : float -> float -> float := SFsub prec emax.
Definition leb : float -> float -> bool := SFleb.

(** [float(n)] for a Python int. *)
Definition of_int (n : Z) : float := binary_normalize prec emax n 0 false.

(** A binary64 value in canonical form. *)
Definition is_double (x : float) : Prop := valid_binary prec emax x = true.

Definition zero : float := S754_zero false.
Definition one : float := S754_finite false 4503599627370496 (-52).
Definition hundred : float := S754_finite false 7036874417766400 (-46).

(** The literal [5.0], the default [target_duration]. *)
Definition five : float := S754_finite false 5629499534213120 (-50).

(** [a / 2^k] rounded to the nearest integer, ties to the even one. *)
Definition round_half_even (a : Z) (k : positive) : Z :=
  let q := a / 2 ^ Zpos k in
  let r := a mod 2 ^ Zpos k in
  match 2 * r ?= 2 ^ Zpos k with
  | Lt => q
  | Gt => q + 1
  | Eq => if Z.even q then q else q + 1
  end.

(** [round(x, 2)] of CPython on a float: the exact binary value of [x] is
    rounded to two decimals, ties to even, and the decimal [n/100] is
    read back as the nearest double, which is what the correctly rounded
    division of [n] by [100] computes.  A float with a non-negative
    exponent is an integer and is returned as it is; NaN and the
    infinities round to themselves. *)
Definition round2 (x : float) : float :=
  match x with
  | S754_finite s m (Zneg k) =>
      match round_half_even (Zpos m * 100) k with
      | Zpos n => div (S754_finite s n 0) (S754_finite false 100 0)
      | _ => S754_zero s
      end
  | _ => x
  end.

End Float.

Abbreviation float := Float.float.

(** ** Exceptions and results *)

(** [HTTPException] is FastAPI's; every other exception is recorded by its
    class name and its message. *)
Inductive exn :=
  | HTTPException (status_code : Z) (detail : string)
  | Exception (class : string) (msg : string).

Inductive result (A : Type) :=
  | Ok (a : A)
  | Raise (e : exn).
Arguments Ok {A} a.
Arguments Raise {A} e.

(** [str(n)] for an int. *)
Definition str_int (n : Z) : string := NilZero.string_of_int (Z.to_int n).

(** [str(e)]: Starlette renders an HTTPException as its status code and
    detail, the other exceptions as their message. *)
Definition str_exn (e : exn) : string :=
  match e with
  | HTTPException status_code detail => str_int status_code +:+ ": " +:+ detail
  | Exception _ msg => msg
  end.

Definition result_bind {A B} (r : result A) (k : A -> result B) : result B :=
  match r with
  | Ok a => k a
  | Raise e => Raise e
  end.

(** ** Sequences *)

Definition matrix := list (list float).

Definition len {A} (l : list A) : Z := Z.of_nat (length l).

Definition index_error {A} (l : list A) (i : Z) : exn :=
  Exception "IndexError"
    ("index " +:+ str_int i +:+ " is out of bounds for axis 0 with size "
     +:+ str_int (len l)).

(** [a[i]] on a numpy array: a negative index counts from the end, an
    index out of range raises IndexError. *)
Definition py_index {A} (l : list A) (i : Z) : result A :=
  let j := if i <? 0 then len l + i else i in
  if (j <? 0) || (len l <=? j) then Raise (index_error l i)
  else
    match l !! Z.to_nat j with
    | Some a => Ok a
    | None => Raise (index_error l i)
    end.

(** [l[:stop]]: a negative stop counts from the end, and the bounds are
    clipped to the sequence. *)
Definition py_slice_to {A} (l : list A) (stop : Z) : list A :=
  if stop <? 0 then take (Z.to_nat (len l + stop)) l
  else take (Z.to_nat stop) l.

(** [np.pad(a, (0, n), mode='constant')], for a width that numpy can
    allocate: beyond that numpy raises, which is not modelled. *)
Definition np_pad_right (a : list float) (n : Z) : result (list float) :=
  if n <? 0 then Raise (Exception "ValueError" "index can't contain negative values")
  else Ok (a ++ replicate (Z.to_nat n) Float.zero).

(** [int(x)] on a float truncates towards zero. *)
Definition py_int (x : float) : result Z :=
  match x with
  | S754_zero _ => Ok 0
  | S754_finite s m e =>
      let a := match e with
               | Zneg k => Zpos m / 2 ^ Zpos k
               | _ => Zpos m * 2 ^ e
               end in
      Ok (if s then - a else a)
  | S754_infinity _ =>
      Raise (Exception "OverflowError" "cannot convert float infinity to integer")
  | S754_nan =>
      Raise (Exception "ValueError" "cannot convert float NaN to integer")
  end.

(** [os.path.join(dir, name)] for a relative [name] and a [dir] without a
    trailing separator. *)
Definition os_path_join (dir name : string) : string := dir +:+ "/" +:+ name.

(** ** JSON values and subscripting *)

#[local] Unset Elimination Schemes.
Inductive json :=
  | JNull
  | JBool (b : bool)
  | JNumber (n : Z)
  | JString (s : string)
  | JArray (l : list json)
  | JObject (m : gmap string json).
#[local] Set Elimination Schemes.

(** [v[key]] for a string key: only a dict can be subscripted by a string. *)
Definition py_getitem (v : json) (key : string) : result json :=
  match v with
  | JObject m =>
      match m !! key with
      | Some x => Ok x
      | None => Raise (Exception "KeyError" ("'" +:+ key +:+ "'"))
      end
  | JNull => Raise (Exception "TypeError" "'NoneType' object is not subscriptable")
  | JArray _ => Raise (Exception "TypeError" "list indices must be integers or slices, not str")
  | JString _ => Raise (Exception "TypeError" "string indices must be integers, not 'str'")
  | JBool _ => Raise (Exception "TypeError" "'bool' object is not subscriptable")
  | JNumber _ => Raise (Exception "TypeError" "'int' object is not subscriptable")
  end.

(** ** The world: files, standard output, temporary names *)

(** [next_tmp] is the name the operating system hands out to the next
    [tempfile.NamedTemporaryFile]: it is an input the program does not
    choose. *)
Record World := {
  fs : gmap string (list Byte.byte);
  stdout : list string;
  next_tmp : string
}.

(** Computations with effects on the world that may raise. *)
Definition M (A : Type) : Type := World -> result A * World.

Definition ret {A} (a : A) : M A := fun w => (Ok a, w).

Definition raise {A} (e : exn) : M A := fun w => (Raise e, w).

Definition bind {A B} (c : M A) (k : A -> M B) : M B :=
  fun w =>
    match c w with
    | (Ok a, w') => k a w'
    | (Raise e, w') => (Raise e, w')
    end.

Definition lift {A} (r : result A) : M A := fun w => (r, w).

(** [try: body except Exception as e: handler(e)] *)
Definition try_except {A} (body : M A) (handler : exn -> M A) : M A :=
  fun w =>
    match body w with
    | (Ok a, w') => (Ok a, w')
    | (Raise e, w') => handler e w'
    end.

(** [try: body finally: cleanup] *)
Definition try_finally {A} (body : M A) (cleanup : M unit) : M A :=
  fun w =>
    match body w with
    | (r, w') =>
        match cleanup w' with
        | (Ok _, w'') => (r, w'')
        | (Raise e, w'') => (Raise e, w'')
        end
    end.

Declare Scope py_scope.
Delimit Scope py_scope with py.
Notation "x <- c ;; k" := (bind c (fun x => k))
  (at level 100, c at next level, right associativity) : py_scope.
Notation "c ;; k" := (bind c (fun _ => k))
  (at level 100, right associativity) : py_scope.
Notation "x <~ r ;; k" := (result_bind r (fun x => k))
  (at level 100, r at next level, right associativity) : py_scope.
Open Scope py_scope.

Definition print (line : string) : M unit :=
  fun w => (Ok tt, {| fs := fs w; stdout := stdout w ++ [line]; next_tmp := next_tmp w |}).

(** [with tempfile.NamedTemporaryFile(suffix=..., delete=False) as f:
    f.write(data); path = f.name] *)
Definition NamedTemporaryFile_write (data : list Byte.byte) : M string :=
  fun w =>
    (Ok (next_tmp w),
     {| fs := <[next_tmp w := data]> (fs w); stdout := stdout w; next_tmp := next_tmp w |}).

Definition os_path_exists (path : string) : M bool :=
  fun w => (Ok (bool_decide (is_Some (fs w !! path))), w).

Definition os_unlink (path : string) : M unit :=
  fun w =>
    match fs w !! path with
    | Some _ => (Ok tt, {| fs := delete path (fs w); stdout := stdout w; next_tmp := next_tmp w |})
    | None => (Raise (Exception "FileNotFoundError" path), w)
    end.

Definition read_file (path : string) : M (list Byte.byte) :=
  fun w =>
    match fs w !! path with
    | Some data => (Ok data, w)
    | None => (Raise (Exception "FileNotFoundError" path), w)
    end.

(** ** The libraries the module calls *)

(** librosa: decoding and the transforms.  [librosa_load data sr duration]
    decodes the bytes of a file, resampled to [sr] and cut after
    [duration] seconds.  A transform returns a matrix, one row per
    coefficient or band and one column per frame, or raises. *)
Class Librosa := {
  librosa_load : list Byte.byte -> Z -> float -> result (list float);
  librosa_mfcc : list float -> Z -> nat -> result matrix;
  librosa_spectral_centroid : list float -> Z -> result matrix;
  librosa_spectral_bandwidth : list float -> Z -> result matrix;
  librosa_spectral_rolloff : list float -> Z -> result matrix;
  librosa_zero_crossing_rate : list float -> result matrix;
  librosa_chroma_stft : list float -> Z -> result matrix;
  librosa_spectral_contrast : list float -> Z -> result matrix;
  librosa_tonnetz : list float -> Z -> result matrix;
  librosa_rms : list float -> result matrix;
  librosa_beat_track : list float -> Z -> result (float * list Z)
}.

(** What librosa documents for [n_mfcc]: the MFCC matrix has one row per
    requested coefficient. *)
Definition mfcc_contract {L : Librosa} : Prop :=
  forall y sr n m, librosa_mfcc y sr n = Ok m -> length m = n.

(** numpy: the four reductions, on the elements of an array. *)
Class Numpy := {
  np_mean : list float -> result float;
  np_std : list float -> result float;
  np_min : list float -> result float;
  np_max : list float -> result float
}.

Class Base64 := {
  b64decode : string -> result (list Byte.byte)
}.

(** A reduction along [axis=1]: one value per row. *)
Fixpoint np_axis1 (stat : list float -> result float) (m : matrix) : result (list float) :=
  match m with
  | [] => Ok []
  | row :: rows =>
      x <~ stat row ;;
      xs <~ np_axis1 stat rows ;;
      Ok (x :: xs)
  end.

(** A reduction without an axis: over all the elements. *)
Definition np_all (stat : list float -> result float) (m : matrix) : result float :=
  stat (concat m).

(** [features.extend(l)] and [features.append(x)] *)
Definition extend (features l : list float) : list float := features ++ l.
Definition append (features : list float) (x : float) : list float := features ++ [x].

(** ** The loaded artifacts *)

Record Classifier := {
  predict : matrix -> result (list Z);
  predict_proba : matrix -> result matrix
}.

Record Scaler := {
  transform : matrix -> result matrix
}.

(** joblib and json: what loading a path gives.  The pickles hold objects
    of the kind the module expects. *)
Class Artifacts := {
  joblib_load_model : string -> result Classifier;
  joblib_load_scaler : string -> result Scaler;
  json_load_file : string -> result json
}.

(** The module's globals.  [config] is a JSON value, [JNull] is [None]. *)
Record Globals := {
  model : option Classifier;
  scaler : option Scaler;
  config : json
}.

Definition initial_globals : Globals :=
  {| model := None; scaler := None; config := JNull |}.

Record PredictionRequest := {
  audio : string
}.

Record PredictionResponse := {
  predicted_cough_type : string;
  confidence_score : float;
  message : option string
}.

(** The response model declares [predicted_cough_type: str]; the message
    of the validation error is abridged. *)
Definition validate_str (v : json) : result string :=
  match v with
  | JString s => Ok s
  | _ => Raise (Exception "ValidationError" "1 validation error for PredictionResponse")
  end.

(** ** The module *)

Section Service.

Context {L : Librosa} {N : Numpy} {B : Base64} {A : Artifacts}.

Definition model_dir : string :=
  "/home/ubuntu/coughsense_project/ml_training/trained_model".

(** [load_models]: the three artifacts are loaded in turn and each global
    is assigned as soon as its artifact is loaded; the first failure
    prints the error and returns [False], keeping the assignments made
    so far. *)
Definition load_models (g : Globals) : M (bool * Globals) :=
  let model_path := os_path_join model_dir "cough_classifier_model.pkl" in
  match joblib_load_model model_path with
  | Raise e => print ("✗ Error loading models: " +:+ str_exn e) ;; ret (false, g)
  | Ok loaded_model =>
      let g := {| model := Some loaded_model; scaler := scaler g; config := config g |} in
      print ("✓ Model loaded from: " +:+ model_path) ;;
      let scaler_path := os_path_join model_dir "feature_scaler.pkl" in
      match joblib_load_scaler scaler_path with
      | Raise e => print ("✗ Error loading models: " +:+ str_exn e) ;; ret (false, g)
      | Ok loaded_scaler =>
          let g := {| model := model g; scaler := Some loaded_scaler; config := config g |} in
          print ("✓ Scaler loaded from: " +:+ scaler_path) ;;
          let config_path := os_path_join model_dir "model_config.json" in
          match json_load_file config_path with
          | Raise e => print ("✗ Error loading models: " +:+ str_exn e) ;; ret (false, g)
          | Ok loaded_config =>
              let g := {| model := model g; scaler := scaler g; config := loaded_config |} in
              print ("✓ Configuration loaded from: " +:+ config_path) ;;
              ret (true, g)
          end
      end
  end.

(** Lines 91-95 of [extract_audio_features]: pad or trim to the fixed
    duration. *)
Definition pad_or_trim (audio : list float) (target_duration : float) (sr : Z)
  : result (list float) :=
  target_length <~ py_int (Float.mul target_duration (Float.of_int sr)) ;;
  if len audio <? target_length then
    np_pad_right audio (target_length - len audio)
  else
    Ok (py_slice_to audio target_length).

(** Lines 97-170 of [extract_audio_features]: the feature list. *)
Definition compute_features (audio : list float) (sr : Z) : result (list float) :=
  let features : list float := [] in
  (* 1. MFCC features (13 coefficients) *)
  mfcc <~ librosa_mfcc audio sr 13 ;;
  mfcc_mean <~ np_axis1 np_mean mfcc ;;
  mfcc_std <~ np_axis1 np_std mfcc ;;
  mfcc_min <~ np_axis1 np_min mfcc ;;
  mfcc_max <~ np_axis1 np_max mfcc ;;
  let features := extend features mfcc_mean in
  let features := extend features mfcc_std in
  let features := extend features mfcc_min in
  let features := extend features mfcc_max in
  (* 2. Spectral Centroid *)
  spectral_centroid <~ librosa_spectral_centroid audio sr ;;
  x <~ np_all np_mean spectral_centroid ;; let features := append features x in
  x <~ np_all np_std spectral_centroid ;; let features := append features x in
  x <~ np_all np_min spectral_centroid ;; let features := append features x in
  x <~ np_all np_max spectral_centroid ;; let features := append features x in
  (* 3. Spectral Bandwidth *)
  spectral_bandwidth <~ librosa_spectral_bandwidth audio sr ;;
  x <~ np_all np_mean spectral_bandwidth ;; let features := append features x in
  x <~ np_all np_std spectral_bandwidth ;; let features := append features x in
  x <~ np_all np_min spectral_bandwidth ;; let features := append features x in
  x <~ np_all np_max spectral_bandwidth ;; let features := append features x in
  (* 4. Spectral Rolloff *)
  spectral_rolloff <~ librosa_spectral_rolloff audio sr ;;
  x <~ np_all np_mean spectral_rolloff ;; let features := append features x in
  x <~ np_all np_std spectral_rolloff ;; let features := append features x in
  x <~ np_all np_min spectral_rolloff ;; let features := append features x in
  x <~ np_all np_max spectral_rolloff ;; let features := append features x in
  (* 5. Zero Crossing Rate *)
  zcr <~ librosa_zero_crossing_rate audio ;;
  x <~ np_all np_mean zcr ;; let features := append features x in
  x <~ np_all np_std zcr ;; let features := append features x in
  x <~ np_all np_min zcr ;; let features := append features x in
  x <~ np_all np_max zcr ;; let features := append features x in
  (* 6. Chroma Features *)
  chroma <~ librosa_chroma_stft audio sr ;;
  x <~ np_all np_mean chroma ;; let features := append features x in
  x <~ np_all np_std chroma ;; let features := append features x in
  x <~ np_all np_min chroma ;; let features := append features x in
  x <~ np_all np_max chroma ;; let features := append features x in
  (* 7. Spectral Contrast *)
  spectral_contrast <~ librosa_spectral_contrast audio sr ;;
  x <~ np_all np_mean spectral_contrast ;; let features := append features x in
  x <~ np_all np_std spectral_contrast ;; let features := append features x in
  x <~ np_all np_min spectral_contrast ;; let features := append features x in
  x <~ np_all np_max spectral_contrast ;; let features := append features x in
  (* 8. Tonnetz (Tonal Centroid Features) *)
  tonnetz <~ librosa_tonnetz audio sr ;;
  x <~ np_all np_mean tonnetz ;; let features := append features x in
  x <~ np_all np_std tonnetz ;; let features := append features x in
  x <~ np_all np_min tonnetz ;; let features := append features x in
  x <~ np_all np_max tonnetz ;; let features := append features x in
  (* 9. RMS Energy *)
  rms <~ librosa_rms audio ;;
  x <~ np_all np_mean rms ;; let features := append features x in
  x <~ np_all np_std rms ;; let features := append features x in
  x <~ np_all np_min rms ;; let features := append features x in
  x <~ np_all np_max rms ;; let features := append features x in
  (* 10. Tempo *)
  tempo_beats <~ librosa_beat_track audio sr ;;
  let features := append features (fst tempo_beats) in
  Ok features.

(** [extract_audio_features]: any exception is printed and turned into
    [None]. *)
Definition extract_audio_features
    (audio_path : string) (target_duration : float) (sr : Z) : M (option (list float)) :=
  try_except
    (data <- read_file audio_path ;;
     audio <- lift (librosa_load data sr target_duration) ;;
     audio <- lift (pad_or_trim audio target_duration sr) ;;
     features <- lift (compute_features audio sr) ;;
     ret (Some features))
    (fun e =>
       print ("Error extracting features: " +:+ str_exn e) ;;
       ret None).

(** The defaults [target_duration=5.0] and [sr=22050]. *)
Definition default_target_duration : float := Float.five.
Definition default_sr : Z := 22050.

Definition banner : string := String.concat "" (replicate 60 "=").

Definition startup_event (g : Globals) : M Globals :=
  print banner ;;
  print "Starting Cough Classification ML Service" ;;
  print banner ;;
  r <- load_models g ;;
  let '(success, g) := r in
  (if negb success then
     print "WARNING: Models not loaded. Service will not function correctly."
   else ret tt) ;;
  print banner ;;
  ret g.

Definition is_not_None {A} (o : option A) : bool :=
  match o with Some _ => true | None => false end.

Definition json_is_not_None (v : json) : bool :=
  match v with JNull => false | _ => true end.

Record RootInfo := {
  root_service : string;
  root_status : string;
  root_model_loaded : bool;
  root_version : string
}.

Definition root (g : Globals) : RootInfo :=
  {| root_service := "Cough Classification ML API";
     root_status := "running";
     root_model_loaded := is_not_None (model g);
     root_version := "1.0.0" |}.

Record HealthInfo := {
  status : string;
  model_loaded : bool;
  scaler_loaded : bool;
  config_loaded : bool
}.

Definition health (g : Globals) : HealthInfo :=
  {| status := if is_not_None (model g) then "healthy" else "unhealthy";
     model_loaded := is_not_None (model g);
     scaler_loaded := is_not_None (scaler g);
     config_loaded := json_is_not_None (config g) |}.

(** Lines 237-252 of [predict_cough]: scaling, classification and the
    response. *)
Definition classify (the_model : Classifier) (the_scaler : Scaler) (the_config : json)
    (features : list float) : result PredictionResponse :=
  features_scaled <~ transform the_scaler [features] ;;
  predictions <~ predict the_model features_scaled ;;
  prediction <~ py_index predictions 0 ;;
  probabilities <~ predict_proba the_model features_scaled ;;
  prediction_proba <~ py_index probabilities 0 ;;
  label_mapping <~ py_getitem the_config "label_mapping" ;;
  cough_type <~ py_getitem label_mapping (str_int prediction) ;;
  p <~ py_index prediction_proba prediction ;;
  let confidence := Float.mul p Float.hundred in
  predicted_cough_type <~ validate_str cough_type ;;
  Ok {| predicted_cough_type := predicted_cough_type;
        confidence_score := Float.round2 confidence;
        message := Some "Prediction completed successfully" |}.

Definition predict_cough (g : Globals) (request : PredictionRequest) : M PredictionResponse :=
  match model g, scaler g with
  | Some the_model, Some the_scaler =>
      try_except
        (audio_data <- lift (b64decode (audio request)) ;;
         temp_path <- NamedTemporaryFile_write audio_data ;;
         try_finally
           (features <- extract_audio_features temp_path default_target_duration default_sr ;;
            match features with
            | None => raise (HTTPException 400 "Failed to extract audio features")
            | Some features => lift (classify the_model the_scaler (config g) features)
            end)
           (present <- os_path_exists temp_path ;;
            if present then os_unlink temp_path else ret tt))
        (fun e =>
           print ("Prediction error: " +:+ str_exn e) ;;
           raise (HTTPException 500 ("Prediction failed: " +:+ str_exn e)))
  | _, _ => raise (HTTPException 503 "ML model not loaded")
  end.

End Service.

(** ** The feature vector as the specification lays it out *)

Section Layout.

Context {L : Librosa} {N : Numpy}.

(** Mean, standard deviation, minimum and maximum over a whole matrix. *)
Definition summary (m : matrix) : result (list float) :=
  a <~ np_all np_mean m ;;
  b <~ np_all np_std m ;;
  c <~ np_all np_min m ;;
  d <~ np_all np_max m ;;
  Ok [a; b; c; d].

Definition summary_of (transform_output : result matrix) : result (list float) :=
  m <~ transform_output ;; summary m.

(** One statistic of each of the 13 MFCC rows. *)
Definition mfcc_stat (stat : list float -> result float) (audio : list float) (sr : Z)
  : result (list float) :=
  m <~ librosa_mfcc audio sr 13 ;; np_axis1 stat m.

Definition tempo_of (audio : list float) (sr : Z) : result float :=
  tempo_beats <~ librosa_beat_track audio sr ;; Ok (fst tempo_beats).

(** The normalised waveform of the file at [path]. *)
Definition waveform_of (w : World) (path : string) (target_duration : float) (sr : Z)
    (audio : list float) : Prop :=
  exists data decoded,
    fs w !! path = Some data /\
    librosa_load data sr target_duration = Ok decoded /\
    pad_or_trim decoded target_duration sr = Ok audio.

End Layout.

(** ** Probabilities and percentages *)

Module FloatRange.
Import Float.

(** A double of [0, 1]. *)
Definition probability (x : float) : Prop :=
  is_double x /\ leb zero x = true /\ leb x one = true.

(** A float of [0, 100]. *)
Definition percentage (x : float) : Prop :=
  leb zero x = true /\ leb x hundred = true.

(** A non-negative float whose exact value [m * 2^e] is at most 100. *)
Definition small (x : float) : Prop :=
  match x with
  | S754_zero _ => True
  | S754_finite false m e => e <= -46 /\ Zpos m <= 100 * 2 ^ (- e)
  | _ => False
  end.

(** The record [r] is [M] shifted right by [n] bits: its mantissa is the
    quotient, and its round and sticky bits are clear when nothing was
    shifted out. *)
Definition shifted (M n : Z) (r : shr_record) : Prop :=
  0 <= shr_m r /\
  exists rest, M = shr_m r * 2 ^ n + rest /\ 0 <= rest < 2 ^ n /\
               (rest = 0 -> shr_r r = false /\ shr_s r = false).

(** The quotient of [n] by [100], as [round2] computes it. *)
Definition centi (n : positive) : float :=
  div (S754_finite false n 0) (S754_finite false 100 0).

Definition centi_in_range (n : positive) : bool :=
  leb zero (centi n) && leb (centi n) hundred.

End FloatRange.

(** ** The scaler *)

(** Modelled from the spec: the fitted scaler is the pickled artifact
    feature_scaler.pkl and its [transform] is library code, neither is in
    the sources.  The specification describes its state as one location
    and scale pair per feature, applied as
    [scaled[i] = (raw[i] - loc[i]) / scale[i]], and its failure as a
    DimensionMismatchError when the vector length is not the number of
    pairs. *)
Definition ScalerState := list (float * float).

(** Modelled from the spec: the scaling of one vector, refused when its
    length is not the fitted dimensionality. *)
Definition scale_vector (st : ScalerState) (raw : list float) : result (list float) :=
  if len raw =? len st then
    Ok (zip_with (fun x p => Float.div (Float.sub x (fst p)) (snd p)) raw st)
  else
    Raise (Exception "DimensionMismatchError"
             ("X has " +:+ str_int (len raw) +:+ " features, but the scaler is expecting "
              +:+ str_int (len st) +:+ " features as input.")).

(** Modelled from the spec: [transform] on a matrix scales each row. *)
Fixpoint scale_rows (st : ScalerState) (X : matrix) : result matrix :=
  match X with
  | [] => Ok []
  | row :: rows =>
      r <~ scale_vector st row ;;
      rs <~ scale_rows st rows ;;
      Ok (r :: rs)
  end.

(** Modelled from the spec: the scaler object with that [transform]. *)
Definition fitted_scaler (st : ScalerState) : Scaler :=
  {| transform := scale_rows st |}.

(** ** A small instance of the interfaces

    Stand-ins for the libraries and the artifacts, on which the embedded
    functions run: they are used to evaluate the module on concrete
    requests. *)

Module Demo.

(** The value of a character of the standard base64 alphabet. *)
Definition b64_value (c : ascii) : option N :=
  let n := N_of_ascii c in
  if ((65 <=? n) && (n <=? 90))%N then Some (n - 65)%N
  else if ((97 <=? n) && (n <=? 122))%N then Some (n - 71)%N
  else if ((48 <=? n) && (n <=? 57))%N then Some (n + 4)%N
  else if (n =? 43)%N then Some 62%N
  else if (n =? 47)%N then Some 63%N
  else None.

Definition byte_of (n : N) : Byte.byte :=
  match Byte.of_N (n mod 256) with
  | Some b => b
  | None => Byte.x00
  end.

Definition padding_error : exn := Exception "Error" "Incorrect padding".

(** Decoding of canonical base64 text: groups of four characters, the
    last one possibly padded. *)
Fixpoint b64decode_groups (s : string) : result (list Byte.byte) :=
  match s with
  | EmptyString => Ok []
  | String a (String b (String c (String d rest))) =>
      match b64_value a, b64_value b with
      | Some x, Some y =>
          let b1 := byte_of (x * 4 + y / 16) in
          if Ascii.eqb d "=" && String.eqb rest "" then
            if Ascii.eqb c "=" then Ok [b1]
            else
              match b64_value c with
              | Some z => Ok [b1; byte_of (y * 16 + z / 4)]
              | None => Raise padding_error
              end
          else
            match b64_value c, b64_value d with
            | Some z, Some t =>
                tail <~ b64decode_groups rest ;;
                Ok (b1 :: byte_of (y * 16 + z / 4) :: byte_of (z * 64 + t) :: tail)
            | _, _ => Raise padding_error
            end
      | _, _ => Raise padding_error
      end
  | _ => Raise padding_error
  end.

#[export] Instance base64 : Base64 := {| b64decode := b64decode_groups |}.

(** A decoder that reads one sample per byte and rejects an empty file,
    and transforms that return small matrices built from the first
    samples. *)
Definition sample_of_byte (b : Byte.byte) : float :=
  Float.of_int (Z.of_N (Byte.to_N b)).

Definition decode (data : list Byte.byte) (sr : Z) (duration : float)
  : result (list float) :=
  match data with
  | [] => Raise (Exception "NoBackendError" "")
  | _ => Ok (map sample_of_byte data)
  end.

Definition frames (y : list float) : list float := take 2 y.

#[export] Instance librosa : Librosa := {|
  librosa_load := decode;
  librosa_mfcc := fun y sr n => Ok (replicate n (frames y));
  librosa_spectral_centroid := fun y sr => Ok [frames y];
  librosa_spectral_bandwidth := fun y sr => Ok [frames y];
  librosa_spectral_rolloff := fun y sr => Ok [frames y];
  librosa_zero_crossing_rate := fun y => Ok [frames y];
  librosa_chroma_stft := fun y sr => Ok (replicate 12 (frames y));
  librosa_spectral_contrast := fun y sr => Ok (replicate 7 (frames y));
  librosa_tonnetz := fun y sr => Ok (replicate 6 (frames y));
  librosa_rms := fun y => Ok [frames y];
  librosa_beat_track := fun y sr => Ok (Float.zero, [])
|}.

Definition first_or_zero (l : list float) : result float :=
  Ok (hd Float.zero l).

#[export] Instance numpy : Numpy := {|
  np_mean := first_or_zero;
  np_std := fun _ => Ok Float.zero;
  np_min := first_or_zero;
  np_max := first_or_zero
|}.

(** The doubles written [0.12] and [0.88]. *)
Definition f0_12 : float := S754_finite false 8646911284551352 (-56).
Definition f0_88 : float := S754_finite false 7926335344172073 (-53).
Definition f88 : float := S754_finite false 6192449487634432 (-46).

(** A classifier that answers class 1 with probabilities [0.12, 0.88]. *)
Definition classifier : Classifier := {|
  predict := fun X => Ok (map (fun _ => 1) X);
  predict_proba := fun X => Ok (map (fun _ => [f0_12; f0_88]) X)
|}.

(** A scaler fitted on 85 features, with location 0 and scale 1. *)
Definition scaler_state : ScalerState := replicate 85 (Float.zero, Float.one).

Definition label_mapping : json :=
  JObject (<["0" := JString "dry"]> (<["1" := JString "wet"]> ∅)).

Definition the_config : json :=
  JObject (<["label_mapping" := label_mapping]> ∅).

(** All three artifacts on disk. *)
Definition artifacts : Artifacts := {|
  joblib_load_model := fun _ => Ok classifier;
  joblib_load_scaler := fun _ => Ok (fitted_scaler scaler_state);
  json_load_file := fun _ => Ok the_config
|}.

(** The configuration file is missing. *)
Definition artifacts_without_config : Artifacts := {|
  joblib_load_model := fun _ => Ok classifier;
  joblib_load_scaler := fun _ => Ok (fitted_scaler scaler_state);
  json_load_file := fun path =>
    Raise (Exception "FileNotFoundError"
             ("[Errno 2] No such file or directory: '" +:+ path +:+ "'"))
|}.

Definition ready : Globals :=
  {| model := Some classifier;
     scaler := Some (fitted_scaler scaler_state);
     config := the_config |}.

Definition no_config : Globals :=
  {| model := Some classifier;
     scaler := Some (fitted_scaler scaler_state);
     config := JNull |}.

Definition world : World :=
  {| fs := ∅; stdout := []; next_tmp := "/tmp/tmpk3v9x2aq.webm" |}.

(** A world with a recording of three samples already on disk. *)
Definition other_world : World :=
  {| fs := <["/tmp/old.webm" := [Byte.x03; Byte.x01; Byte.x02]]> ∅;
     stdout := ["started"];
     next_tmp := "/tmp/tmp0f7d1c5e.webm" |}.

(** The features of that recording. *)
Definition features : list float :=
  Eval vm_compute in
    match fst (extract_audio_features "/tmp/old.webm" Float.five 22050 other_world) with
    | Ok (Some v) => v
    | _ => []
    end.

(** The answer "wet" with confidence 88.0. *)
Definition wet_response : PredictionResponse :=
  {| predicted_cough_type := "wet";
     confidence_score := f88;
     message := Some "Prediction completed successfully" |}.

(** A feature vector that is one value short. *)
Definition short_vector : list float := replicate 84 Float.zero.

(** Three bytes of audio, and an empty recording. *)
Definition request : PredictionRequest := {| audio := "AAEC" |}.
Definition empty_request : PredictionRequest := {| audio := "" |}.

End Demo.

(** ** The answer of a request as a function *)

Section Answer.

Context {L : Librosa} {N : Numpy} {B : Base64}.

(** What [extract_audio_features] returns, as a function of the contents
    of the file it is given. *)
Definition extracted (data : option (list Byte.byte)) (target_duration : float) (sr : Z)
  : option (list float) :=
  match data with
  | Some data =>
      match (audio <~ librosa_load data sr target_duration ;;
             audio <~ pad_or_trim audio target_duration sr ;;
             compute_features audio sr) with
      | Ok features => Some features
      | Raise _ => None
      end
  | None => None
  end.

(** What [predict_cough] answers, as a function of the globals and the
    request. *)
Definition response (g : Globals) (request : PredictionRequest) : result PredictionResponse :=
  match model g, scaler g with
  | Some the_model, Some the_scaler =>
      match (audio_data <~ b64decode (audio request) ;;
             match extracted (Some audio_data) default_target_duration default_sr with
             | None => Raise (HTTPException 400 "Failed to extract audio features")
             | Some features => classify the_model the_scaler (config g) features
             end) with
      | Ok r => Ok r
      | Raise e => Raise (HTTPException 500 ("Prediction failed: " +:+ str_exn e))
      end
  | _, _ => Raise (HTTPException 503 "ML model not loaded")
  end.

(** The classifier answers [prediction] and the probability vector
    [proba] on the scaled features [X]. *)
Definition classified (the_model : Classifier) (X : matrix)
    (prediction : Z) (proba : list float) : Prop :=
  exists predictions probabilities,
    predict the_model X = Ok predictions /\
    py_index predictions 0 = Ok prediction /\
    predict_proba the_model X = Ok probabilities /\
    py_index probabilities 0 = Ok proba.

(** [label] is the entry of the label map at the class index. *)
Definition label_of (the_config : json) (prediction : Z) (label : string) : Prop :=
  exists label_mapping,
    py_getitem the_config "label_mapping" = Ok label_mapping /\
    py_getitem label_mapping (str_int prediction) = Ok (JString label).

End Answer.

(** ** Worlds after a run, and two-decimal floats *)

(** The world after [lines] were printed. *)
Definition printed (w : World) (lines : list string) : World :=
  {| fs := fs w; stdout := stdout w ++ lines; next_tmp := next_tmp w |}.

(** The three artifact paths of [load_models]. *)
Definition model_path : string := os_path_join model_dir "cough_classifier_model.pkl".
Definition scaler_path : string := os_path_join model_dir "feature_scaler.pkl".
Definition config_path : string := os_path_join model_dir "model_config.json".

Module FloatShape.
Import Float.

(** A zero, or the double nearest to [n / 100] for an integer [n] from 1
    to 10000. *)
Definition two_decimals (x : float) : Prop :=
  (exists s, x = S754_zero s) \/
  (exists n, Zpos n <= 10000 /\ x = FloatRange.centi n).

End FloatShape.

(** ** Further instances *)

Module Cases.

(** The scaler file is missing. *)
Definition artifacts_without_scaler : Artifacts := {|
  joblib_load_model := fun _ => Ok Demo.classifier;
  joblib_load_scaler := fun path =>
    Raise (Exception "FileNotFoundError"
             ("[Errno 2] No such file or directory: '" +:+ path +:+ "'"));
  json_load_file := fun _ => Ok Demo.the_config
|}.

Definition without_scaler : Globals :=
  {| model := Some Demo.classifier; scaler := None; config := JNull |}.

(** Text that is not base64. *)
Definition malformed_request : PredictionRequest := {| audio := "abc" |}.

(** A label map without an entry for class 1. *)
Definition dry_only : gmap string json := <["0" := JString "dry"]> ∅.

Definition config_dry_only : json :=
  JObject (<["label_mapping" := JObject dry_only]> ∅).

Definition ready_dry_only : Globals :=
  {| model := Some Demo.classifier;
     scaler := Some (fitted_scaler Demo.scaler_state);
     config := config_dry_only |}.

(** The bytes of [Demo.request], their features and the scaled matrix. *)
Definition request_data : list Byte.byte := [Byte.x00; Byte.x01; Byte.x02].

Definition request_features : list float :=
  Eval vm_compute in
    match extracted (L := Demo.librosa) (N := Demo.numpy)
            (Some request_data) default_target_duration default_sr with
    | Some v => v
    | None => []
    end.

Definition request_scaled : matrix :=
  Eval vm_compute in
    match transform (fitted_scaler Demo.scaler_state) [request_features] with
    | Ok X => X
    | Raise _ => []
    end.

(** A classifier whose classes are labelled 1 and 2: it answers class 2
    with two probabilities. *)
Definition classifier_class2 : Classifier := {|
  predict := fun X => Ok (map (fun _ => 2) X);
  predict_proba := fun X => Ok (map (fun _ => [Demo.f0_12; Demo.f0_88]) X)
|}.

Definition labels_1_2 : gmap string json :=
  <["1" := JString "dry"]> (<["2" := JString "wet"]> ∅).

Definition ready_class2 : Globals :=
  {| model := Some classifier_class2;
     scaler := Some (fitted_scaler Demo.scaler_state);
     config := JObject (<["label_mapping" := JObject labels_1_2]> ∅) |}.

(** The double [-5.0]. *)
Definition minus_five : float := S754_finite true 5629499534213120 (-50).

End Cases.

(** ** The exact value of a float *)

Module FloatValue.
Import Float.

(** The value of a finite float as a rational, [m * 2^e] with its sign;
    zero for the zeros, and for NaN and the infinities, which have no
    value. *)
Definition to_Q (x : float) : Q :=
  match x with
  | S754_finite s m (Zneg k) => Qmake (if s then Zneg m else Zpos m) (2 ^ k)%positive
  | S754_finite s m e => inject_Z ((if s then Zneg m else Zpos m) * 2 ^ e)
  | _ => 0%Q
  end.

End FloatValue.

(** ** A classifier whose confidence needs rounding *)

Module Thirds.

(** The doubles written [0.6666666666666666], [0.3333333333333333] and
    [66.67]. *)
Definition f2_3 : float := S754_finite false 6004799503160661 (-53).
Definition f1_3 : float := S754_finite false 6004799503160661 (-54).
Definition f66_67 : float := S754_finite false 4691484174324859 (-46).

(** A classifier that answers class 0 with probabilities two thirds and
    one third. *)
Definition classifier : Classifier := {|
  predict := fun X => Ok (map (fun _ => 0) X);
  predict_proba := fun X => Ok (map (fun _ => [f2_3; f1_3]) X)
|}.

Definition ready : Globals :=
  {| model := Some classifier;
     scaler := Some (fitted_scaler Demo.scaler_state);
     config := Demo.the_config |}.

(** The answer "dry" with confidence 66.67. *)
Definition dry_response : PredictionResponse :=
  {| predicted_cough_type := "dry";
     confidence_score := f66_67;
     message := Some "Prediction completed successfully" |}.

End Thirds.

(** * Properties *)

(** ** Floating-point facts *)

Module FloatFacts.
Import Float FloatRange.

Lemma digits2_pos_size p : digits2_pos p = Pos.size p.
Proof. induction p; simpl; congruence. Qed.

Lemma pos_lt_pow_digits p : Zpos p < 2 ^ Zpos (digits2_pos p).
Proof.
  rewrite digits2_pos_size.
  pose proof (Pos.size_gt p) as Hlt.
  apply Pos2Z.pos_lt_pos in Hlt. rewrite Pos2Z.inj_pow in Hlt. exact Hlt.
Qed.

Lemma Zdigits2_le m k : 0 <= m -> 0 <= k -> m < 2 ^ k -> Zdigits2 m <= k.
Proof.
  intros Hm Hk Hlt. destruct m as [|p|p]; simpl; try lia.
  rewrite digits2_pos_size.
  pose proof (Pos.size_le p) as Hle.
  apply Pos2Z.pos_le_pos in Hle. rewrite Pos2Z.inj_pow in Hle.
  change (Zpos p~0) with (2 * Zpos p) in Hle.
  assert (Hp : 2 ^ Zpos (Pos.size p) < 2 ^ (k + 1)).
  { rewrite Z.pow_add_r by lia. lia. }
  apply Z.pow_lt_mono_r_iff in Hp; lia.
Qed.

(** Shifting by one more bit keeps the record in step with [M]. *)
Lemma shifted_shr_1 M n r : 0 <= n -> shifted M n r -> shifted M (n + 1) (shr_1 r).
Proof.
  intros Hn [Hm (rest & HM & Hrest & Hbits)].
  destruct r as [m rb sb]. simpl in *.
  assert (Hpow : 2 ^ (n + 1) = 2 * 2 ^ n) by (rewrite Z.pow_add_r by lia; lia).
  assert (Hpos : 0 < 2 ^ n) by (apply Z.pow_pos_nonneg; lia).
  destruct m as [|[p|p|]|p]; try lia; unfold shifted; simpl.
  - split; [lia|]. exists rest. rewrite Hpow.
    split; [lia|]. split; [lia|]. intros Hz. destruct (Hbits Hz) as [-> ->]. auto.
  - split; [lia|]. exists (2 ^ n + rest). rewrite Hpow.
    split; [lia|]. split; [lia|]. intros Hz. lia.
  - split; [lia|]. exists rest. rewrite Hpow.
    split; [lia|]. split; [lia|]. intros Hz. destruct (Hbits Hz) as [-> ->]. auto.
  - split; [lia|]. exists (2 ^ n + rest). rewrite Hpow.
    split; [lia|]. split; [lia|]. intros Hz. lia.
Qed.

Lemma shifted_iter_pos p : forall M n r,
  0 <= n -> shifted M n r -> shifted M (n + Zpos p) (SpecFloat.iter_pos shr_1 p r).
Proof.
  induction p as [p IH|p IH|]; intros M n r Hn Hr; simpl.
  - replace (n + Zpos p~1) with (n + 1 + Zpos p + Zpos p) by lia.
    apply IH; [lia|]. apply IH; [lia|]. now apply shifted_shr_1.
  - replace (n + Zpos p~0) with (n + Zpos p + Zpos p) by lia.
    apply IH; [lia|]. now apply IH.
  - now apply shifted_shr_1.
Qed.

(** Rounding to nearest even does not cross an integer bound of the exact
    quotient. *)
Lemma shifted_round_le M n r K :
  0 <= n -> shifted M n r -> M <= K * 2 ^ n ->
  0 <= round_nearest_even (shr_m r) (loc_of_shr_record r) <= K /\ shr_m r <= K.
Proof.
  intros Hn [Hm (rest & HM & Hrest & Hbits)] HK.
  assert (Hpos : 0 < 2 ^ n) by (apply Z.pow_pos_nonneg; lia).
  destruct (Z.eq_dec rest 0) as [->|Hne].
  - destruct Hbits as [Hr Hs]; [reflexivity|].
    destruct r as [m rb sb]; simpl in *. subst rb sb. simpl. nia.
  - assert (shr_m r + 1 <= K) by nia.
    destruct r as [m rb sb]; simpl in *.
    destruct rb, sb; simpl; try destruct (Z.even m); lia.
Qed.

Lemma shr_fexp_shifted m e :
  0 <= m ->
  exists n, 0 <= n /\
    snd (shr_fexp prec emax m e loc_Exact) = e + n /\
    shifted m n (fst (shr_fexp prec emax m e loc_Exact)) /\
    (n = 0 \/ e + n = fexp prec emax (Zdigits2 m + e)).
Proof.
  intros Hm. unfold shr_fexp, shr. simpl shr_record_of_loc.
  assert (H0 : shifted m 0 {| shr_m := m; shr_r := false; shr_s := false |}).
  { split; [exact Hm|]. exists 0. simpl. repeat split; lia. }
  destruct (fexp prec emax (Zdigits2 m + e) - e) as [|p|p] eqn:Hn; simpl.
  - exists 0. split; [lia|]. split; [lia|]. split; [exact H0|now left].
  - exists (Zpos p). split; [lia|]. split; [lia|]. split.
    + apply (shifted_iter_pos p m 0); [lia|exact H0].
    + right. lia.
  - exists 0. split; [lia|]. split; [lia|]. split; [exact H0|now left].
Qed.

(** One rounding of [m * 2^e] below the bound [K * 2^0], where [K < 2^kk]. *)
Lemma shr_fexp_le K kk m e :
  0 <= m -> 0 < K < 2 ^ kk -> 0 <= kk <= prec -> e <= kk - prec ->
  m <= K * 2 ^ (- e) ->
  let '(r, e') := shr_fexp prec emax m e loc_Exact in
  e' <= kk - prec /\
  0 <= round_nearest_even (shr_m r) (loc_of_shr_record r) <= K * 2 ^ (- e') /\
  0 <= shr_m r <= K * 2 ^ (- e').
Proof.
  intros Hm HK Hkk He Hle.
  destruct (shr_fexp_shifted m e Hm) as (n & Hn & He' & Hsh & Hcase).
  destruct (shr_fexp prec emax m e loc_Exact) as [r e']. simpl in He', Hsh.
  assert (Hprec : prec = 53) by reflexivity.
  assert (Hemin : emin prec emax = -1074) by reflexivity.
  assert (He'le : e' <= kk - prec).
  { destruct Hcase as [->|Hf]; [lia|].
    rewrite He', Hf. unfold fexp. rewrite Hemin.
    assert (Zdigits2 m <= kk - e).
    { apply Zdigits2_le; [lia|lia|].
      eapply Z.le_lt_trans; [exact Hle|].
      replace (kk - e) with (kk + - e) by lia. rewrite Z.pow_add_r by lia.
      apply Z.mul_lt_mono_pos_r; [apply Z.pow_pos_nonneg; lia|lia]. }
    lia. }
  split; [exact He'le|].
  assert (Hsplit : K * 2 ^ (- e) = K * 2 ^ (- e') * 2 ^ n).
  { replace (- e) with (- e' + n) by lia. rewrite Z.pow_add_r by lia. ring. }
  rewrite Hsplit in Hle.
  destruct (shifted_round_le m n r _ Hn Hsh Hle) as [H1 H2].
  destruct Hsh as [H3 _]. lia.
Qed.

(** Rounding to binary64 does not cross a bound [K * 2^0] either: the
    result is zero or a float whose exact value is at most [K]. *)
Lemma binary_round_aux_le K kk s m e :
  0 <= m -> 0 < K < 2 ^ kk -> 0 <= kk <= prec -> e <= kk - prec ->
  m <= K * 2 ^ (- e) ->
  binary_round_aux prec emax s m e loc_Exact = S754_zero s \/
  exists m' e',
    binary_round_aux prec emax s m e loc_Exact = S754_finite s m' e' /\
    e' <= kk - prec /\ Zpos m' <= K * 2 ^ (- e').
Proof.
  intros Hm HK Hkk He Hle. unfold binary_round_aux.
  pose proof (shr_fexp_le K kk m e Hm HK Hkk He Hle) as H1.
  destruct (shr_fexp prec emax m e loc_Exact) as [r1 e1].
  destruct H1 as (He1 & [Hm2 Hm2le] & _).
  pose proof (shr_fexp_le K kk _ e1 Hm2 HK Hkk He1 Hm2le) as H2.
  destruct (shr_fexp prec emax _ e1 loc_Exact) as [r2 e2].
  destruct H2 as (He2 & _ & [Hm3 Hm3le]).
  destruct (shr_m r2) as [|p|p]; [now left| |lia].
  right. exists p, e2.
  assert (Hprec : prec = 53) by reflexivity.
  assert (Hemax : emax = 1024) by reflexivity.
  replace (e2 <=? emax - prec) with true by (symmetry; apply Z.leb_le; lia).
  auto.
Qed.

Lemma compare_cont_Eq a b : Pos.compare_cont Eq a b = (Zpos a ?= Zpos b).
Proof. reflexivity. Qed.

(** The product of a probability by [100.0] is at most 100. *)
Lemma mul_hundred_small p : probability p -> small (mul p hundred).
Proof.
  intros (Hvalid & H0 & H1).
  destruct p as [s|[]| |[] m e]; try discriminate; [exact I|].
  unfold mul, hundred, SFmul. simpl xorb.
  assert (Hm : Zpos m <= 2 ^ (- e) /\ e <= -52).
  { unfold leb, SFleb, one, SFcompare in H1.
    destruct (Z.compare_spec e (-52)) as [->|Hlt|Hgt]; try discriminate.
    - split; [|lia]. change (2 ^ (- -52)) with 4503599627370496.
      rewrite compare_cont_Eq in H1.
      destruct (Z.compare_spec (Zpos m) 4503599627370496); try discriminate; lia.
    - split; [|lia].
      unfold is_double, valid_binary, bounded, canonical_mantissa in Hvalid.
      apply andb_prop in Hvalid as [Hc _]. apply Z.eqb_eq in Hc.
      unfold fexp in Hc. change prec with 53 in Hc.
      pose proof (pos_lt_pow_digits m) as Hd.
      assert (Zpos (digits2_pos m) <= 53) by lia.
      assert (2 ^ Zpos (digits2_pos m) <= 2 ^ (- e)) by (apply Z.pow_le_mono_r; lia).
      lia. }
  destruct Hm as [Hm He].
  destruct (binary_round_aux_le 100 7 false (Zpos (m * 7036874417766400)) (e + -46))
    as [->|(m' & e' & -> & He' & Hm')].
  - lia.
  - change (2 ^ 7) with 128. lia.
  - change prec with 53. lia.
  - change prec with 53. lia.
  - rewrite Pos2Z.inj_mul.
    replace (- (e + -46)) with (- e + 46) by lia.
    rewrite Z.pow_add_r by lia. change (2 ^ 46) with 70368744177664. nia.
  - exact I.
  - simpl. change prec with 53 in He'. split; [lia|exact Hm'].
Qed.

Lemma small_percentage x : small x -> percentage x.
Proof.
  destruct x as [s|s| |[] m e]; simpl; try contradiction.
  - intros _. split; reflexivity.
  - intros [He Hm]. split; [reflexivity|].
    unfold leb, SFleb, hundred, SFcompare.
    destruct (Z.compare_spec e (-46)) as [->|Hlt|Hgt]; [|reflexivity|lia].
    change (2 ^ (- -46)) with 70368744177664 in Hm.
    rewrite compare_cont_Eq.
    destruct (Z.compare_spec (Zpos m) 7036874417766400); try reflexivity. lia.
Qed.

Lemma round_half_even_bound a k B :
  0 <= a <= B * 2 ^ Zpos k -> 0 <= round_half_even a k <= B.
Proof.
  intros Ha. unfold round_half_even.
  assert (Hpos : 0 < 2 ^ Zpos k) by (apply Z.pow_pos_nonneg; lia).
  pose proof (Z.div_mod a (2 ^ Zpos k) ltac:(lia)) as Hdm.
  pose proof (Z.mod_pos_bound a (2 ^ Zpos k) Hpos) as Hr.
  set (q := a / 2 ^ Zpos k) in *. set (r := a mod 2 ^ Zpos k) in *.
  assert (Hq : 0 <= q) by nia.
  assert (HqB : q <= B) by nia.
  destruct (Z.compare_spec (2 * r) (2 ^ Zpos k)) as [Heq|Hlt|Hgt].
  - assert (q < B) by nia. destruct (Z.even q); lia.
  - lia.
  - assert (q < B) by nia. lia.
Qed.

(** [n / 100] is in [0, 100] for every [n] from 1 to 10000, by
    evaluation. *)
Lemma centi_table :
  forallb centi_in_range (map Pos.of_nat (seq 1 (Z.to_nat 10000))) = true.
Proof. vm_compute. reflexivity. Qed.

Lemma centi_percentage n : Zpos n <= 10000 -> percentage (centi n).
Proof.
  intros Hn.
  assert (Hin : In n (map Pos.of_nat (seq 1 (Z.to_nat 10000)))).
  { apply in_map_iff. exists (Pos.to_nat n). split; [apply Pos2Nat.id|].
    apply in_seq. lia. }
  pose proof centi_table as Ht. rewrite forallb_forall in Ht.
  specialize (Ht n Hin). unfold centi_in_range in Ht.
  apply andb_prop in Ht. exact Ht.
Qed.

(** [round(x, 2)] stays in [0, 100]. *)
Lemma round2_small x : small x -> percentage (round2 x).
Proof.
  destruct x as [s|s| |[] m e]; simpl; try contradiction.
  - intros _. split; reflexivity.
  - intros [He Hm]. destruct e as [|k|k]; try lia.
    pose proof (round_half_even_bound (Zpos m * 100) k 10000) as Hb.
    change (- Zneg k) with (Zpos k) in Hm.
    destruct (round_half_even (Zpos m * 100) k) as [|n|n].
    + split; reflexivity.
    + apply centi_percentage. lia.
    + lia.
Qed.

Lemma confidence_percentage p :
  probability p -> percentage (round2 (mul p hundred)).
Proof. intros Hp. apply round2_small, mul_hundred_small, Hp. Qed.

End FloatFacts.

(** ** Rounding to hundredths *)

Module FloatRounding.
Import Float FloatRange FloatValue.

(** [round_half_even a k] is an integer nearest to [a / 2^k]. *)
Lemma round_half_even_near a k :
  2 * Z.abs (a - round_half_even a k * 2 ^ Zpos k) <= 2 ^ Zpos k.
Proof.
  unfold round_half_even.
  assert (Hpos : 0 < 2 ^ Zpos k) by (apply Z.pow_pos_nonneg; lia).
  pose proof (Z.div_mod a (2 ^ Zpos k) ltac:(lia)) as Hdm.
  pose proof (Z.mod_pos_bound a (2 ^ Zpos k) Hpos) as Hr.
  set (q := a / 2 ^ Zpos k) in *. set (r := a mod 2 ^ Zpos k) in *.
  destruct (Z.compare_spec (2 * r) (2 ^ Zpos k)) as [Heq|Hlt|Hgt].
  - destruct (Z.even q); nia.
  - nia.
  - nia.
Qed.

Lemma hundredth_near (m n : Z) (P : positive) :
  2 * Z.abs (m * 100 - n * Zpos P) <= Zpos P ->
  (Qabs ((m # P) - (n # 100)) <= 1 # 200)%Q.
Proof.
  intros Hnear. unfold Qle, Qabs, Qminus, Qplus, Qopp. cbn [Qnum Qden].
  rewrite Pos2Z.inj_mul.
  replace (m * 100 + - n * Zpos P) with (m * 100 - n * Zpos P) by ring. lia.
Qed.

(** [round(y, 2)] of a float [y] of [0, 100]: a hundredth [n / 100] at
    most 0.005 away from the exact value of [y], returned as the double
    nearest to it. *)
Lemma round2_small_hundredth y :
  small y ->
  exists n : Z,
    0 <= n <= 10000 /\
    (Qabs (to_Q y - (n # 100)) <= 1 # 200)%Q /\
    match n with
    | Zpos h => round2 y = centi h
    | _ => exists s, round2 y = S754_zero s
    end.
Proof.
  destruct y as [s|s| |[] m e]; cbn [small]; try contradiction.
  - intros _. exists 0. split; [lia|]. split; [discriminate|]. cbn. eauto.
  - intros [He Hm]. destruct e as [|k|k]; try lia.
    change (- Zneg k) with (Zpos k) in Hm.
    pose proof (FloatFacts.round_half_even_bound (Zpos m * 100) k 10000
                  ltac:(lia)) as Hb.
    pose proof (round_half_even_near (Zpos m * 100) k) as Hnear.
    exists (round_half_even (Zpos m * 100) k).
    split; [exact Hb|]. split.
    + cbn [to_Q]. apply hundredth_near. rewrite Pos2Z.inj_pow. exact Hnear.
    + cbn [round2].
      destruct (round_half_even (Zpos m * 100) k) as [|h|h]; [eauto|reflexivity|lia].
Qed.

End FloatRounding.


(** ** Effects *)

Lemma result_bind_Ok {A B} (r : result A) (k : A -> result B) b :
  result_bind r k = Ok b -> exists a, r = Ok a /\ k a = Ok b.
Proof. destruct r as [a|e]; simpl; [eauto|discriminate]. Qed.

(** Inversion of a chain of binds that ends well. *)
Ltac bind_inv H :=
  repeat match type of H with
         | result_bind ?r _ = Ok _ =>
             let a := fresh "v" in
             let Ha := fresh "E" in
             destruct r as [a|] eqn:Ha; [|discriminate H];
             unfold result_bind at 1 in H; cbv beta in H
         | (let x := _ in _) = _ => cbv zeta in H
         end.

Lemma cleanup_removes path w :
  exists w',
    (present <- os_path_exists path ;;
     if present then os_unlink path else ret tt) w = (Ok (), w') /\
    fs w' = delete path (fs w) /\
    stdout w' = stdout w /\ next_tmp w' = next_tmp w.
Proof.
  unfold bind, os_path_exists, os_unlink, ret.
  destruct (fs w !! path) as [data|] eqn:Hfile.
  - rewrite bool_decide_eq_true_2 by eauto. rewrite Hfile. eauto.
  - rewrite bool_decide_eq_false_2 by (intros [? ?]; congruence).
    exists w. repeat split. symmetry. now apply delete_id.
Qed.

Lemma try_finally_cleanup {A} (body : M A) path w :
  fst (try_finally body
         (present <- os_path_exists path ;;
          if present then os_unlink path else ret tt) w) = fst (body w).
Proof.
  unfold try_finally. destruct (body w) as [r w1].
  destruct (cleanup_removes path w1) as (w2 & -> & _). reflexivity.
Qed.

Section Extraction.

Context {L : Librosa} {N : Numpy}.

(** The value [extract_audio_features] returns depends on the world only
    through the contents of the file, and the files are left as they
    were. *)
Lemma extract_audio_features_value path target_duration sr w :
  fst (extract_audio_features path target_duration sr w)
    = Ok (extracted (fs w !! path) target_duration sr) /\
  fs (snd (extract_audio_features path target_duration sr w)) = fs w.
Proof.
  unfold extract_audio_features, try_except, bind, read_file, lift, ret, print, extracted.
  destruct (fs w !! path) as [data|]; simpl; [|auto].
  destruct (librosa_load data sr target_duration) as [decoded|e]; simpl; [|auto].
  destruct (pad_or_trim decoded target_duration sr) as [audio|e]; simpl; [|auto].
  destruct (compute_features audio sr) as [features|e]; simpl; auto.
Qed.

End Extraction.

Section Requests.

Context {L : Librosa} {N : Numpy} {B : Base64}.

(** [predict_cough] answers [response] in every world. *)
Lemma predict_cough_response g request w :
  fst (predict_cough g request w) = response g request.
Proof.
  unfold predict_cough, response.
  destruct (model g) as [the_model|]; [|reflexivity].
  destruct (scaler g) as [the_scaler|]; [|reflexivity].
  unfold try_except.
  unfold bind at 1, lift at 1.
  destruct (b64decode (audio request)) as [data|e]; cbn [result_bind fst]; [|reflexivity].
  set (features := extracted (Some data) default_target_duration default_sr).
  unfold bind at 1. unfold NamedTemporaryFile_write at 1.
  match goal with
  | |- context [try_finally ?body ?cleanup ?w1] =>
      pose proof (try_finally_cleanup body (next_tmp w) w1) as Hfin;
      destruct (try_finally body cleanup w1) as [r w2]
  end.
  cbn [fst] in Hfin. subst r.
  unfold bind at 1.
  match goal with
  | |- context [extract_audio_features ?p ?d ?s ?w1] =>
      destruct (extract_audio_features_value p d s w1) as [Hval _];
      destruct (extract_audio_features p d s w1) as [r w3]
  end.
  cbn [fst fs] in Hval. rewrite lookup_insert_eq in Hval. fold features in Hval.
  subst r.
  destruct features as [features|]; unfold lift, raise; cbn [fst].
  - destruct (classify the_model the_scaler (config g) features); reflexivity.
  - reflexivity.
Qed.

End Requests.

(** ** The feature vector *)

Section Features.

Context {L : Librosa} {N : Numpy}.

Lemma np_axis1_length stat m l :
  np_axis1 stat m = Ok l -> length l = length m.
Proof.
  revert l. induction m as [|row rows IH]; intros l Hl; simpl in Hl.
  - now inversion Hl.
  - apply result_bind_Ok in Hl as (x & _ & Hl).
    apply result_bind_Ok in Hl as (xs & Hxs & Hl).
    inversion Hl. simpl. f_equal. now apply IH.
Qed.

Lemma summary_length m l : summary m = Ok l -> length l = 4%nat.
Proof. unfold summary. intros Hl. bind_inv Hl. now inversion Hl. Qed.

Lemma summary_of_length t l : summary_of t = Ok l -> length l = 4%nat.
Proof.
  unfold summary_of. intros Hl. apply result_bind_Ok in Hl as (m & _ & Hl).
  eapply summary_length, Hl.
Qed.

Lemma mfcc_stat_length stat audio sr l :
  mfcc_contract -> mfcc_stat stat audio sr = Ok l -> length l = 13%nat.
Proof.
  unfold mfcc_stat. intros Hrows Hl.
  apply result_bind_Ok in Hl as (m & Hm & Hl).
  apply np_axis1_length in Hl. apply Hrows in Hm. congruence.
Qed.

(** The four statistics appended after a transform are its summary. *)
Lemma appended_summary t m a b c d :
  t = Ok m ->
  np_all np_mean m = Ok a -> np_all np_std m = Ok b ->
  np_all np_min m = Ok c -> np_all np_max m = Ok d ->
  summary_of t = Ok [a; b; c; d].
Proof.
  intros -> Ha Hb Hc Hd. unfold summary_of, summary. simpl.
  now rewrite Ha, Hb, Hc, Hd.
Qed.

Lemma compute_features_layout audio sr v :
  compute_features audio sr = Ok v ->
  exists mfcc_mean mfcc_std mfcc_min mfcc_max
         centroid bandwidth rolloff zcr chroma contrast tonnetz rms tempo,
    mfcc_stat np_mean audio sr = Ok mfcc_mean /\
    mfcc_stat np_std audio sr = Ok mfcc_std /\
    mfcc_stat np_min audio sr = Ok mfcc_min /\
    mfcc_stat np_max audio sr = Ok mfcc_max /\
    summary_of (librosa_spectral_centroid audio sr) = Ok centroid /\
    summary_of (librosa_spectral_bandwidth audio sr) = Ok bandwidth /\
    summary_of (librosa_spectral_rolloff audio sr) = Ok rolloff /\
    summary_of (librosa_zero_crossing_rate audio) = Ok zcr /\
    summary_of (librosa_chroma_stft audio sr) = Ok chroma /\
    summary_of (librosa_spectral_contrast audio sr) = Ok contrast /\
    summary_of (librosa_tonnetz audio sr) = Ok tonnetz /\
    summary_of (librosa_rms audio) = Ok rms /\
    tempo_of audio sr = Ok tempo /\
    v = mfcc_mean ++ mfcc_std ++ mfcc_min ++ mfcc_max ++
        centroid ++ bandwidth ++ rolloff ++ zcr ++
        chroma ++ contrast ++ tonnetz ++ rms ++ [tempo].
Proof.
  unfold compute_features. intros Hv. bind_inv Hv.
  injection Hv as <-.
  do 13 eexists.
  repeat match goal with
         | |- mfcc_stat _ _ _ = _ /\ _ =>
             split; [unfold mfcc_stat;
                     match goal with
                     | Hm : librosa_mfcc _ _ _ = Ok _ |- _ => rewrite Hm
                     end; cbn [result_bind]; eassumption|]
         | |- summary_of _ = _ /\ _ =>
             split; [eapply appended_summary; [reflexivity|eassumption..]|]
         | |- tempo_of _ _ = _ /\ _ =>
             split; [unfold tempo_of;
                     match goal with
                     | Ht : librosa_beat_track _ _ = Ok _ |- _ => rewrite Ht
                     end; reflexivity|]
         end.
  unfold extend, append. rewrite <- !app_assoc. reflexivity.
Qed.

End Features.

Section FeatureVector.

Context {L : Librosa} {N : Numpy}.

(** C1.  Whenever [extract_audio_features] returns a vector, it has exactly
    85 values: the 13 MFCC means, the 13 MFCC standard deviations, the 13
    MFCC minima, the 13 MFCC maxima, then mean, standard deviation,
    minimum and maximum of the spectral centroid, the spectral bandwidth,
    the spectral rolloff, the zero-crossing rate, the chroma, the spectral
    contrast, the tonnetz and the RMS energy, in this order, and the tempo
    as its last element, all computed on the normalised waveform. *)
Theorem extract_audio_features_layout path target_duration sr w w' v :
  mfcc_contract ->
  extract_audio_features path target_duration sr w = (Ok (Some v), w') ->
  length v = 85%nat /\
  exists audio mfcc_mean mfcc_std mfcc_min mfcc_max
         centroid bandwidth rolloff zcr chroma contrast tonnetz rms tempo,
    waveform_of w path target_duration sr audio /\
    mfcc_stat np_mean audio sr = Ok mfcc_mean /\
    mfcc_stat np_std audio sr = Ok mfcc_std /\
    mfcc_stat np_min audio sr = Ok mfcc_min /\
    mfcc_stat np_max audio sr = Ok mfcc_max /\
    summary_of (librosa_spectral_centroid audio sr) = Ok centroid /\
    summary_of (librosa_spectral_bandwidth audio sr) = Ok bandwidth /\
    summary_of (librosa_spectral_rolloff audio sr) = Ok rolloff /\
    summary_of (librosa_zero_crossing_rate audio) = Ok zcr /\
    summary_of (librosa_chroma_stft audio sr) = Ok chroma /\
    summary_of (librosa_spectral_contrast audio sr) = Ok contrast /\
    summary_of (librosa_tonnetz audio sr) = Ok tonnetz /\
    summary_of (librosa_rms audio) = Ok rms /\
    tempo_of audio sr = Ok tempo /\
    Forall (fun l => length l = 13%nat) [mfcc_mean; mfcc_std; mfcc_min; mfcc_max] /\
    Forall (fun l => length l = 4%nat)
      [centroid; bandwidth; rolloff; zcr; chroma; contrast; tonnetz; rms] /\
    v = mfcc_mean ++ mfcc_std ++ mfcc_min ++ mfcc_max ++
        centroid ++ bandwidth ++ rolloff ++ zcr ++
        chroma ++ contrast ++ tonnetz ++ rms ++ [tempo] /\
    v !! 84%nat = Some tempo.
Proof.
  intros Hrows Hrun.
  destruct (extract_audio_features_value path target_duration sr w) as [Hval _].
  rewrite Hrun in Hval. cbn [fst] in Hval. injection Hval as Hval.
  unfold extracted in Hval.
  destruct (fs w !! path) as [data|] eqn:Hfile; [|discriminate].
  destruct (librosa_load data sr target_duration) as [decoded|] eqn:Hload;
    [|discriminate].
  cbn [result_bind] in Hval.
  destruct (pad_or_trim decoded target_duration sr) as [audio|] eqn:Hpad;
    [|discriminate].
  cbn [result_bind] in Hval.
  destruct (compute_features audio sr) as [features|] eqn:Hfeat; [|discriminate].
  injection Hval as <-.
  destruct (compute_features_layout audio sr v Hfeat)
    as (mm & ms & mn & mx & c1 & c2 & c3 & c4 & c5 & c6 & c7 & c8 & tempo &
        Hmm & Hms & Hmn & Hmx & H1' & H2' & H3' & H4' & H5' & H6' & H7' & H8' &
        Htempo & Hv).
  pose proof (mfcc_stat_length _ _ _ _ Hrows Hmm) as Lmm.
  pose proof (mfcc_stat_length _ _ _ _ Hrows Hms) as Lms.
  pose proof (mfcc_stat_length _ _ _ _ Hrows Hmn) as Lmn.
  pose proof (mfcc_stat_length _ _ _ _ Hrows Hmx) as Lmx.
  pose proof (summary_of_length _ _ H1') as L1.
  pose proof (summary_of_length _ _ H2') as L2.
  pose proof (summary_of_length _ _ H3') as L3.
  pose proof (summary_of_length _ _ H4') as L4.
  pose proof (summary_of_length _ _ H5') as L5.
  pose proof (summary_of_length _ _ H6') as L6.
  pose proof (summary_of_length _ _ H7') as L7.
  pose proof (summary_of_length _ _ H8') as L8.
  split.
  - rewrite Hv. rewrite !length_app. cbn [length]. lia.
  - exists audio, mm, ms, mn, mx, c1, c2, c3, c4, c5, c6, c7, c8, tempo.
    split; [exists data, decoded; auto|].
    do 13 (split; [assumption|]).
    split; [repeat constructor; assumption|].
    split; [repeat constructor; assumption|].
    split; [exact Hv|].
    rewrite Hv.
    repeat (rewrite lookup_app_r; rewrite ?length_app; [|lia]).
    match goal with |- [tempo] !! ?i = _ => replace i with 0%nat by lia end.
    reflexivity.
Qed.

End FeatureVector.

(** ** The normalised waveform *)

(** C2.  The pad-or-trim step returns exactly [target_length] samples, where
    [target_length] is [int(target_duration * sr)]: a shorter signal is
    followed by zeros, of a longer one the first [target_length] samples are
    kept. *)
Theorem pad_or_trim_length audio target_duration sr target_length :
  py_int (Float.mul target_duration (Float.of_int sr)) = Ok target_length ->
  0 <= target_length ->
  exists out,
    pad_or_trim audio target_duration sr = Ok out /\
    len out = target_length /\
    (len audio < target_length ->
       out = audio ++ replicate (Z.to_nat (target_length - len audio)) Float.zero) /\
    (target_length <= len audio -> out = take (Z.to_nat target_length) audio).
Proof.
  intros Hlen Hpos. unfold pad_or_trim. rewrite Hlen. cbn [result_bind].
  destruct (Z.ltb_spec (len audio) target_length) as [Hshort|Hlong].
  - unfold np_pad_right.
    destruct (Z.ltb_spec (target_length - len audio) 0) as [Hneg|_]; [lia|].
    eexists. split; [reflexivity|]. unfold len in *.
    rewrite length_app, length_replicate.
    split; [lia|]. split; [reflexivity|lia].
  - unfold py_slice_to.
    destruct (Z.ltb_spec target_length 0) as [Hneg|_]; [lia|].
    eexists. split; [reflexivity|]. unfold len in *.
    rewrite length_take.
    split; [lia|]. split; [lia|reflexivity].
Qed.

(** ** Prediction *)

Section Prediction.

Context {L : Librosa} {N : Numpy} {B : Base64}.

Lemma validate_str_Ok v s : validate_str v = Ok s -> v = JString s.
Proof. destruct v; simpl; intros Hs; now inversion Hs. Qed.

(** A response of [classify] carries the label of the predicted class
    and the rounded percentage of its probability. *)
Lemma classify_Ok the_model the_scaler the_config features r :
  classify the_model the_scaler the_config features = Ok r ->
  exists X prediction proba p,
    transform the_scaler [features] = Ok X /\
    classified the_model X prediction proba /\
    label_of the_config prediction (predicted_cough_type r) /\
    py_index proba prediction = Ok p /\
    confidence_score r = Float.round2 (Float.mul p Float.hundred).
Proof.
  unfold classify. intros Hr. bind_inv Hr.
  injection Hr as <-. cbn [predicted_cough_type confidence_score].
  match goal with
  | Hs : validate_str _ = Ok _ |- _ => apply validate_str_Ok in Hs; subst
  end.
  do 4 eexists. split; [eauto|].
  split; [do 2 eexists; eauto 10|].
  split; [eexists; eauto|].
  split; [eauto|reflexivity].
Qed.

Lemma response_Ok g request r :
  response g request = Ok r ->
  exists the_model the_scaler data features,
    model g = Some the_model /\ scaler g = Some the_scaler /\
    b64decode (audio request) = Ok data /\
    extracted (Some data) default_target_duration default_sr = Some features /\
    classify the_model the_scaler (config g) features = Ok r.
Proof.
  unfold response.
  destruct (model g) as [the_model|]; [|discriminate].
  destruct (scaler g) as [the_scaler|]; [|discriminate].
  destruct (b64decode (audio request)) as [data|]; [|discriminate].
  cbn [result_bind].
  destruct (extracted (Some data) default_target_duration default_sr)
    as [features|] eqn:Hex; [|discriminate].
  destruct (classify the_model the_scaler (config g) features) as [r'|] eqn:Hc;
    [|discriminate].
  intros Hr. injection Hr as <-.
  exists the_model, the_scaler, data, features. auto 10.
Qed.

Lemma predict_cough_Ok g request w r w' :
  predict_cough g request w = (Ok r, w') ->
  exists the_model the_scaler features X prediction proba p,
    model g = Some the_model /\ scaler g = Some the_scaler /\
    transform the_scaler [features] = Ok X /\
    classified the_model X prediction proba /\
    label_of (config g) prediction (predicted_cough_type r) /\
    py_index proba prediction = Ok p /\
    confidence_score r = Float.round2 (Float.mul p Float.hundred).
Proof.
  intros Hrun. pose proof (predict_cough_response g request w) as Hresp.
  rewrite Hrun in Hresp. cbn [fst] in Hresp. symmetry in Hresp.
  apply response_Ok in Hresp
    as (the_model & the_scaler & data & features & Hm & Hs & _ & _ & Hc).
  apply classify_Ok in Hc as (X & prediction & proba & p & HX & Hcl & Hl & Hp & Hconf).
  exists the_model, the_scaler, features, X, prediction, proba, p. auto 10.
Qed.

(** C3.  The label of a prediction is the entry of the label map at the
    classifier's class index, written as a string, and the confidence is
    the probability at that index as a percentage with two decimals.  In
    particular class index 1 with the label map {"0": "dry", "1": "wet"}
    and the probabilities [0.12, 0.88] give the label "wet" and the
    confidence 88.0. *)
Theorem predicted_label_and_confidence g request w r w' :
  predict_cough g request w = (Ok r, w') ->
  exists the_model X prediction proba p,
    model g = Some the_model /\
    classified the_model X prediction proba /\
    label_of (config g) prediction (predicted_cough_type r) /\
    py_index proba prediction = Ok p /\
    confidence_score r = Float.round2 (Float.mul p Float.hundred) /\
    (prediction = 1 -> proba = [Demo.f0_12; Demo.f0_88] ->
     py_getitem (config g) "label_mapping" = Ok Demo.label_mapping ->
     predicted_cough_type r = "wet" /\ confidence_score r = Demo.f88).
Proof.
  intros Hrun.
  apply predict_cough_Ok in Hrun
    as (the_model & _ & _ & X & prediction & proba & p &
        Hm & _ & _ & Hcl & Hl & Hp & Hconf).
  exists the_model, X, prediction, proba, p.
  do 5 (split; [assumption|]).
  intros -> -> Hmap.
  destruct Hl as (lm & Hlm & Hlabel).
  rewrite Hmap in Hlm. injection Hlm as <-.
  assert (Hwet : py_getitem Demo.label_mapping (str_int 1) = Ok (JString "wet"))
    by (vm_compute; reflexivity).
  rewrite Hwet in Hlabel. injection Hlabel as Hlabel.
  assert (Hp88 : py_index [Demo.f0_12; Demo.f0_88] 1 = Ok Demo.f0_88)
    by (vm_compute; reflexivity).
  rewrite Hp88 in Hp. injection Hp as <-.
  split; [now symmetry|]. rewrite Hconf. vm_compute. reflexivity.
Qed.

(** C8.  The confidence of a successful prediction is the probability of
    the predicted class multiplied by 100 and rounded to two decimals.
    When the entries of the probability vector are doubles of [0, 1], it
    lies in [0, 100] and it is a hundredth: there is an integer [n] from
    0 to 10000 with [n / 100] at most 0.005 away from the exact value of
    the product, and the confidence is the double nearest to [n / 100],
    a zero when [n] is 0. *)
Theorem confidence_score_range g request w r w' :
  predict_cough g request w = (Ok r, w') ->
  exists the_model X prediction proba p,
    model g = Some the_model /\
    classified the_model X prediction proba /\
    py_index proba prediction = Ok p /\
    confidence_score r = Float.round2 (Float.mul p Float.hundred) /\
    (Forall FloatRange.probability proba ->
     FloatRange.percentage (confidence_score r) /\
     exists n : Z,
       0 <= n <= 10000 /\
       (Qabs (FloatValue.to_Q (Float.mul p Float.hundred) - (n # 100))
          <= 1 # 200)%Q /\
       match n with
       | Zpos h => confidence_score r = FloatRange.centi h
       | _ => exists s, confidence_score r = S754_zero s
       end).
Proof.
  intros Hrun.
  apply predict_cough_Ok in Hrun
    as (the_model & _ & _ & X & prediction & proba & p &
        Hm & _ & _ & Hcl & _ & Hp & Hconf).
  exists the_model, X, prediction, proba, p.
  do 4 (split; [assumption|]).
  intros Hall.
  assert (Hprob : FloatRange.probability p).
  { unfold py_index in Hp.
    destruct ((_ <? 0) || _); [discriminate|].
    destruct (proba !! _) as [x|] eqn:Hx; [|discriminate].
    injection Hp as <-.
    rewrite Forall_forall in Hall. apply Hall.
    eapply list_elem_of_lookup_2, Hx. }
  rewrite Hconf. split.
  - apply FloatFacts.confidence_percentage, Hprob.
  - apply FloatRounding.round2_small_hundredth, FloatFacts.mul_hundred_small, Hprob.
Qed.

(** C7.  Two runs of [predict_cough] on the same request with the same
    globals answer the same, whatever the files, the output printed so
    far and the name of the temporary file are. *)
Theorem predict_cough_deterministic g request w1 w2 :
  fst (predict_cough g request w1) = fst (predict_cough g request w2).
Proof. now rewrite !predict_cough_response. Qed.

End Prediction.

(** ** Failures *)

Section Failures.

Context {L : Librosa} {N : Numpy} {B : Base64}.

(** When the features cannot be extracted, the 400 raised inside the
    [try] block is caught by its own [except Exception] and answered as
    a 500. *)
Lemma response_extraction_failure g request the_model the_scaler data :
  model g = Some the_model -> scaler g = Some the_scaler ->
  b64decode (audio request) = Ok data ->
  extracted (Some data) default_target_duration default_sr = None ->
  response g request
    = Raise (HTTPException 500 "Prediction failed: 400: Failed to extract audio features").
Proof.
  intros Hm Hs Hdata Hnone. unfold response.
  rewrite Hm, Hs, Hdata. cbn [result_bind]. rewrite Hnone. reflexivity.
Qed.

(** Without a configuration no request is answered with a prediction,
    and none is answered 503 either. *)
Lemma response_without_config g request the_model the_scaler :
  model g = Some the_model -> scaler g = Some the_scaler -> config g = JNull ->
  exists e, response g request
            = Raise (HTTPException 500 ("Prediction failed: " +:+ str_exn e)).
Proof.
  intros Hm Hs Hc. unfold response. rewrite Hm, Hs, Hc.
  destruct (b64decode (audio request)) as [data|e]; cbn [result_bind]; [|eauto].
  destruct (extracted (Some data) default_target_duration default_sr)
    as [features|]; [|eauto].
  destruct (classify the_model the_scaler JNull features) as [r|e] eqn:Hr; [|eauto].
  apply classify_Ok in Hr as (_ & prediction & _ & _ & _ & _ & Hl & _).
  destruct Hl as (lm & Hlm & _). discriminate Hlm.
Qed.

(** C5.  A request whose features cannot be extracted yields no feature
    vector, [extract_audio_features] returns [None] on its file, and it is
    answered with status 500 and the detail
    "Prediction failed: 400: Failed to extract audio features": the
    status 400 raised for it does not reach the caller. *)
Theorem extraction_failure_answer g request w the_model the_scaler data :
  model g = Some the_model -> scaler g = Some the_scaler ->
  b64decode (audio request) = Ok data ->
  extracted (Some data) default_target_duration default_sr = None ->
  (forall w1 path,
      fs w1 !! path = Some data ->
      fst (extract_audio_features path default_target_duration default_sr w1) = Ok None) /\
  fst (predict_cough g request w)
    = Raise (HTTPException 500 "Prediction failed: 400: Failed to extract audio features").
Proof.
  intros Hm Hs Hdata Hnone. split.
  - intros w1 path Hfile.
    destruct (extract_audio_features_value path default_target_duration default_sr w1)
      as [-> _].
    now rewrite Hfile, Hnone.
  - rewrite predict_cough_response.
    eapply response_extraction_failure; eassumption.
Qed.

Context {A : Artifacts}.

(** C4.  When the model and the scaler load and the configuration does
    not, start-up leaves the model and the scaler set and the
    configuration [None]; [/health] then reports "healthy", and every
    request passes the guard of [predict_cough]: it is answered 500
    after the pipeline ran, a request whose features cannot be extracted
    with the extraction error, and none is answered 503. *)
Theorem startup_without_config w the_model the_scaler e :
  joblib_load_model (os_path_join model_dir "cough_classifier_model.pkl") = Ok the_model ->
  joblib_load_scaler (os_path_join model_dir "feature_scaler.pkl") = Ok the_scaler ->
  json_load_file (os_path_join model_dir "model_config.json") = Raise e ->
  let g := {| model := Some the_model; scaler := Some the_scaler; config := JNull |} in
  (exists w', load_models initial_globals w = (Ok (false, g), w')) /\
  fst (startup_event initial_globals w) = Ok g /\
  status (health g) = "healthy" /\
  (forall request w2, exists e',
      fst (predict_cough g request w2)
        = Raise (HTTPException 500 ("Prediction failed: " +:+ str_exn e'))) /\
  (forall request w2 data,
      b64decode (audio request) = Ok data ->
      extracted (Some data) default_target_duration default_sr = None ->
      fst (predict_cough g request w2)
        = Raise (HTTPException 500
                   "Prediction failed: 400: Failed to extract audio features")).
Proof.
  intros Hmodel Hscaler Hconfig g.
  assert (Hload : exists w', load_models initial_globals w = (Ok (false, g), w')).
  { unfold load_models. rewrite Hmodel. cbv zeta.
    unfold bind at 1. unfold print at 1.
    rewrite Hscaler. cbv zeta.
    unfold bind at 1. unfold print at 1.
    rewrite Hconfig.
    unfold bind, print, ret. eexists. reflexivity. }
  split; [exact Hload|].
  split.
  { destruct Hload as (w' & Hload). unfold startup_event.
    unfold bind at 1. unfold print at 1.
    unfold bind at 1. unfold print at 1.
    unfold bind at 1. unfold print at 1.
    unfold bind at 1.
    match goal with
    | |- context [load_models initial_globals ?w0] =>
        assert (Hsame : exists w'', load_models initial_globals w0 = (Ok (false, g), w''))
    end.
    { unfold load_models. rewrite Hmodel. cbv zeta.
      unfold bind at 1. unfold print at 1.
      rewrite Hscaler. cbv zeta.
      unfold bind at 1. unfold print at 1.
      rewrite Hconfig.
      unfold bind, print, ret. eexists. reflexivity. }
    destruct Hsame as (w'' & ->). reflexivity. }
  split; [reflexivity|].
  split.
  - intros request w2. rewrite predict_cough_response.
    eapply response_without_config; reflexivity.
  - intros request w2 data Hdata Hnone. rewrite predict_cough_response.
    eapply response_extraction_failure; try eassumption; reflexivity.
Qed.

End Failures.

(** ** The scaler *)

Lemma scale_vector_Ok st raw out :
  scale_vector st raw = Ok out -> length raw = length st /\ length out = length st.
Proof.
  unfold scale_vector, len.
  destruct (Z.eqb_spec (Z.of_nat (length raw)) (Z.of_nat (length st))) as [Heq|];
    [|discriminate].
  intros Hout. injection Hout as <-. rewrite length_zip_with. lia.
Qed.

(** C6.  A feature vector whose length is not the 85 the scaler was fitted
    on is refused with a DimensionMismatchError, by the scaler and so by
    the classification step that calls it; a vector that is scaled has
    length 85, and so has its image. *)
Theorem scale_vector_dimension st raw :
  length st = 85%nat ->
  length raw <> 85%nat ->
  (exists msg,
      scale_vector st raw = Raise (Exception "DimensionMismatchError" msg) /\
      transform (fitted_scaler st) [raw] = Raise (Exception "DimensionMismatchError" msg) /\
      forall the_model the_config,
        classify the_model (fitted_scaler st) the_config raw
          = Raise (Exception "DimensionMismatchError" msg)) /\
  (forall other out,
      scale_vector st other = Ok out ->
      length other = 85%nat /\ length out = 85%nat).
Proof.
  intros Hst Hraw. split.
  - assert (Hmis : exists msg,
               scale_vector st raw = Raise (Exception "DimensionMismatchError" msg)).
    { unfold scale_vector, len.
      destruct (Z.eqb_spec (Z.of_nat (length raw)) (Z.of_nat (length st))) as [Heq|_];
        [lia|eauto]. }
    destruct Hmis as [msg Hmsg]. exists msg.
    split; [exact Hmsg|]. split.
    + cbn [transform fitted_scaler scale_rows]. now rewrite Hmsg.
    + intros the_model the_config. unfold classify.
      cbn [transform fitted_scaler scale_rows]. now rewrite Hmsg.
  - intros other out Hout. apply scale_vector_Ok in Hout. lia.
Qed.

(** ** Health *)

(** C10.  [/health] reports "healthy" exactly when the model is loaded:
    the scaler and the configuration are reported in fields of their own
    and do not change the status, and [model_loaded] of the root endpoint
    reflects only the model. *)
Theorem health_status_model_only the_model the_scaler the_config :
  let g := {| model := the_model; scaler := the_scaler; config := the_config |} in
  (status (health g) = "healthy" <-> the_model <> None) /\
  (status (health g) = "unhealthy" <-> the_model = None) /\
  (forall other_scaler other_config,
      status (health {| model := the_model; scaler := other_scaler; config := other_config |})
        = status (health g) /\
      root_model_loaded (root {| model := the_model; scaler := other_scaler;
                                 config := other_config |})
        = root_model_loaded (root g)) /\
  (model_loaded (health g) = true <-> the_model <> None) /\
  (scaler_loaded (health g) = true <-> the_scaler <> None) /\
  (config_loaded (health g) = true <-> the_config <> JNull) /\
  (root_model_loaded (root g) = true <-> the_model <> None).
Proof.
  cbv zeta. unfold health, root. cbn.
  destruct the_model, the_scaler, the_config; cbn;
    repeat split; intros; try discriminate; try congruence; auto.
Qed.

(** ** The theorems on the small instance *)

Module Examples.

Import Demo.

Lemma demo_mfcc_contract : mfcc_contract.
Proof.
  intros y sr n m Hm. cbn in Hm. injection Hm as <-. apply length_replicate.
Defined.

Lemma demo_extraction :
  extract_audio_features "/tmp/old.webm" Float.five 22050 other_world
    = (Ok (Some features), other_world).
Proof. vm_compute. reflexivity. Defined.

Lemma demo_run : predict_cough ready request world = (Ok wet_response, world).
Proof. vm_compute. reflexivity. Defined.

(** The MFCC contract holds of the stand-in, the recording on disk is
    extracted, and its vector has 85 values. *)
Lemma extract_audio_features_layout_witness :
  mfcc_contract /\
  extract_audio_features "/tmp/old.webm" Float.five 22050 other_world
    = (Ok (Some features), other_world) /\
  length features = 85%nat.
Proof.
  split; [exact demo_mfcc_contract|]. split; [exact demo_extraction|].
  exact (proj1 (extract_audio_features_layout _ _ _ _ _ _
                  demo_mfcc_contract demo_extraction)).
Defined.

(** At the defaults the target length is 110250, and a signal of three
    samples is padded to it. *)
Lemma pad_or_trim_length_witness :
  py_int (Float.mul Float.five (Float.of_int 22050)) = Ok 110250 /\
  0 <= 110250 /\
  exists out,
    pad_or_trim [Float.one; Float.zero; Float.one] Float.five 22050 = Ok out /\
    len out = 110250 /\
    (len [Float.one; Float.zero; Float.one] < 110250 ->
       out = [Float.one; Float.zero; Float.one] ++
             replicate (Z.to_nat (110250 - len [Float.one; Float.zero; Float.one]))
               Float.zero) /\
    (110250 <= len [Float.one; Float.zero; Float.one] ->
       out = take (Z.to_nat 110250) [Float.one; Float.zero; Float.one]).
Proof.
  split; [vm_compute; reflexivity|]. split; [lia|].
  apply pad_or_trim_length; [vm_compute; reflexivity|lia].
Defined.

Lemma demo_classified the_model X prediction proba :
  model ready = Some the_model ->
  classified the_model X prediction proba ->
  prediction = 1 /\ proba = [f0_12; f0_88].
Proof.
  intros Hm (predictions & probabilities & Hp & Hi & Hq & Hj).
  injection Hm as <-. cbn in Hp, Hq.
  injection Hp as <-. injection Hq as <-.
  destruct X as [|row rows]; [discriminate Hi|].
  cbn in Hi, Hj. injection Hi as <-. injection Hj as <-. auto.
Defined.

(** Scenario C on the stand-in classifier: the request is answered "wet"
    with confidence 88.0. *)
Lemma predicted_label_and_confidence_witness :
  predict_cough ready request world = (Ok wet_response, world) /\
  predicted_cough_type wet_response = "wet" /\
  confidence_score wet_response = f88.
Proof.
  split; [exact demo_run|].
  destruct (predicted_label_and_confidence _ _ _ _ _ demo_run)
    as (the_model & X & prediction & proba & p & Hm & Hcl & _ & _ & _ & Hscenario).
  destruct (demo_classified _ _ _ _ Hm Hcl) as [Hone Hproba].
  apply Hscenario; [exact Hone|exact Hproba|reflexivity].
Defined.

Lemma thirds_run :
  predict_cough Thirds.ready request world = (Ok Thirds.dry_response, world).
Proof. vm_compute. reflexivity. Defined.

Lemma thirds_classified the_model X prediction proba :
  model Thirds.ready = Some the_model ->
  classified the_model X prediction proba ->
  prediction = 0 /\ proba = [Thirds.f2_3; Thirds.f1_3].
Proof.
  intros Hm (predictions & probabilities & Hp & Hi & Hq & Hj).
  injection Hm as <-. cbn in Hp, Hq.
  injection Hp as <-. injection Hq as <-.
  destruct X as [|row rows]; [discriminate Hi|].
  cbn in Hi, Hj. injection Hi as <-. injection Hj as <-. auto.
Defined.

Lemma thirds_probabilities :
  Forall FloatRange.probability [Thirds.f2_3; Thirds.f1_3].
Proof. repeat constructor. Defined.

(** The probabilities two thirds and one third are doubles of [0, 1];
    the product [66.66666666666666] is answered as [66.67], a percentage
    and a hundredth at most 0.005 away from it. *)
Lemma confidence_score_range_witness :
  predict_cough Thirds.ready request world = (Ok Thirds.dry_response, world) /\
  Forall FloatRange.probability [Thirds.f2_3; Thirds.f1_3] /\
  FloatRange.percentage (confidence_score Thirds.dry_response) /\
  exists n : Z,
    0 <= n <= 10000 /\
    (Qabs (FloatValue.to_Q (Float.mul Thirds.f2_3 Float.hundred) - (n # 100))
       <= 1 # 200)%Q /\
    match n with
    | Zpos h => confidence_score Thirds.dry_response = FloatRange.centi h
    | _ => exists s, confidence_score Thirds.dry_response = S754_zero s
    end.
Proof.
  split; [exact thirds_run|]. split; [exact thirds_probabilities|].
  destruct (confidence_score_range _ _ _ _ _ thirds_run)
    as (the_model & X & prediction & proba & p & Hm & Hcl & Hp & _ & Hrange).
  destruct (thirds_classified _ _ _ _ Hm Hcl) as [Hzero Hproba].
  rewrite Hzero, Hproba in Hp.
  assert (Hfirst : py_index [Thirds.f2_3; Thirds.f1_3] 0 = Ok Thirds.f2_3)
    by reflexivity.
  rewrite Hfirst in Hp. injection Hp as <-.
  apply Hrange. rewrite Hproba. exact thirds_probabilities.
Defined.

(** An empty recording cannot be decoded: the request is answered 500. *)
Lemma extraction_failure_answer_witness :
  model ready = Some classifier /\
  scaler ready = Some (fitted_scaler scaler_state) /\
  b64decode (audio empty_request) = Ok [] /\
  extracted (Some []) default_target_duration default_sr = None /\
  fst (predict_cough ready empty_request world)
    = Raise (HTTPException 500 "Prediction failed: 400: Failed to extract audio features").
Proof.
  assert (Hnone : extracted (Some []) default_target_duration default_sr = None)
    by (vm_compute; reflexivity).
  split; [reflexivity|]. split; [reflexivity|]. split; [reflexivity|].
  split; [exact Hnone|].
  exact (proj2 (extraction_failure_answer ready empty_request world classifier
                  (fitted_scaler scaler_state) [] eq_refl eq_refl eq_refl Hnone)).
Defined.

(** With the configuration file missing, start-up ends in [no_config]
    and the request for an empty recording is answered 500, not 503. *)
Lemma startup_without_config_witness :
  fst (startup_event (A := artifacts_without_config) initial_globals world) = Ok no_config /\
  status (health no_config) = "healthy" /\
  fst (predict_cough no_config empty_request world)
    = Raise (HTTPException 500 "Prediction failed: 400: Failed to extract audio features").
Proof.
  pose proof (startup_without_config (A := artifacts_without_config) world
                classifier (fitted_scaler scaler_state)
                (Exception "FileNotFoundError"
                   ("[Errno 2] No such file or directory: '" +:+
                    os_path_join model_dir "model_config.json" +:+ "'"))
                eq_refl eq_refl eq_refl) as Hstart.
  cbv zeta in Hstart.
  destruct Hstart as (_ & Hevent & Hhealth & _ & Hextract).
  split; [exact Hevent|]. split; [exact Hhealth|].
  apply (Hextract empty_request world []); [reflexivity|vm_compute; reflexivity].
Defined.

(** A vector of 84 values is refused by a scaler fitted on 85. *)
Lemma scale_vector_dimension_witness :
  length scaler_state = 85%nat /\
  length short_vector <> 85%nat /\
  exists msg,
    scale_vector scaler_state short_vector
      = Raise (Exception "DimensionMismatchError" msg).
Proof.
  assert (Hst : length scaler_state = 85%nat) by reflexivity.
  assert (Hraw : length short_vector <> 85%nat) by (vm_compute; discriminate).
  split; [exact Hst|]. split; [exact Hraw|].
  destruct (proj1 (scale_vector_dimension scaler_state short_vector Hst Hraw))
    as (msg & Hmsg & _).
  exists msg. exact Hmsg.
Defined.

End Examples.

(** * Further properties *)

(** ** Worlds *)

Lemma printed_nil w : printed w [] = w.
Proof. destruct w. unfold printed. cbn. now rewrite app_nil_r. Qed.

(** [try: body finally: cleanup] with the clean-up of [predict_cough]
    answers what the body answers and removes the file. *)
Lemma try_finally_world {A} (body : M A) path w :
  exists w',
    try_finally body
      (present <- os_path_exists path ;;
       if present then os_unlink path else ret tt) w = (fst (body w), w') /\
    fs w' = delete path (fs (snd (body w))) /\
    stdout w' = stdout (snd (body w)) /\
    next_tmp w' = next_tmp (snd (body w)).
Proof.
  unfold try_finally. destruct (body w) as [r w1].
  destruct (cleanup_removes path w1) as (w2 & -> & Hfs & Hout & Htmp).
  exists w2. auto.
Qed.

Section Runs.

Context {L : Librosa} {N : Numpy}.

(** The world [extract_audio_features] leaves: nothing is printed when a
    vector is returned, one line when [None] is. *)
Lemma extract_audio_features_world path target_duration sr w :
  exists lines,
    extract_audio_features path target_duration sr w
      = (Ok (extracted (fs w !! path) target_duration sr), printed w lines) /\
    match extracted (fs w !! path) target_duration sr with
    | Some _ => lines = []
    | None => exists msg, lines = ["Error extracting features: " +:+ msg]
    end.
Proof.
  unfold extract_audio_features, try_except, bind, read_file, lift, ret, print, extracted.
  destruct (fs w !! path) as [data|]; cbn [result_bind];
    [|eexists; split; [reflexivity|eauto]].
  destruct (librosa_load data sr target_duration) as [decoded|e]; cbn [result_bind];
    [|eexists; split; [reflexivity|eauto]].
  destruct (pad_or_trim decoded target_duration sr) as [audio|e]; cbn [result_bind];
    [|eexists; split; [reflexivity|eauto]].
  destruct (compute_features audio sr) as [features|e];
    [|eexists; split; [reflexivity|eauto]].
  exists []. now rewrite printed_nil.
Qed.

(** X8.  [extract_audio_features] never raises and never changes a file:
    it returns a vector and prints nothing, or returns [None] after
    printing one line that starts with "Error extracting features: ";
    a missing file gives [None]. *)
Theorem extract_audio_features_returns path target_duration sr w :
  exists v w',
    extract_audio_features path target_duration sr w = (Ok v, w') /\
    fs w' = fs w /\ next_tmp w' = next_tmp w /\
    (is_Some v -> stdout w' = stdout w) /\
    (v = None ->
       exists msg, stdout w' = stdout w ++ ["Error extracting features: " +:+ msg]) /\
    (fs w !! path = None -> v = None).
Proof.
  destruct (extract_audio_features_world path target_duration sr w)
    as (lines & Hrun & Hlines).
  exists (extracted (fs w !! path) target_duration sr), (printed w lines).
  split; [exact Hrun|]. split; [reflexivity|]. split; [reflexivity|].
  destruct (extracted (fs w !! path) target_duration sr) as [v|] eqn:Hv.
  - subst lines. split; [intros _; apply app_nil_r|].
    split; [discriminate|].
    intros Hnone. rewrite Hnone in Hv. discriminate.
  - destruct Hlines as (msg & ->).
    split; [intros [x Hx]; discriminate|]. split; [eauto|reflexivity].
Qed.

Context {B : Base64}.

(** A request that passes the guard and whose audio decodes: the
    temporary file is gone afterwards, a prediction prints nothing, and
    a failure prints its cause last. *)
Lemma predict_cough_world g request w the_model the_scaler data :
  model g = Some the_model -> scaler g = Some the_scaler ->
  b64decode (audio request) = Ok data ->
  exists lines,
    snd (predict_cough g request w)
      = {| fs := delete (next_tmp w) (fs w);
           stdout := stdout w ++ lines;
           next_tmp := next_tmp w |} /\
    ((exists r, fst (predict_cough g request w) = Ok r /\ lines = []) \/
     (exists cause before,
         fst (predict_cough g request w)
           = Raise (HTTPException 500 ("Prediction failed: " +:+ str_exn cause)) /\
         lines = before ++ ["Prediction error: " +:+ str_exn cause])).
Proof.
  intros Hm Hs Hdata.
  destruct (predict_cough g request w) as [answer w'] eqn:Hrun. cbn [fst snd].
  unfold predict_cough in Hrun. rewrite Hm, Hs in Hrun.
  unfold try_except in Hrun. unfold bind at 1, lift at 1 in Hrun.
  rewrite Hdata in Hrun.
  unfold bind at 1 in Hrun. unfold NamedTemporaryFile_write at 1 in Hrun.
  match type of Hrun with
  | context [try_finally ?body ?cleanup ?w1] =>
      destruct (try_finally_world body (next_tmp w) w1)
        as (w3 & Heq & Hfs & Hout & Htmp);
      rewrite Heq in Hrun; clear Heq;
      remember (body w1) as run eqn:Hbody
  end.
  unfold bind at 1 in Hbody.
  match type of Hbody with
  | context [extract_audio_features ?p ?d ?s ?w1] =>
      destruct (extract_audio_features_world p d s w1) as (lines & Hx & Hlines);
      rewrite Hx in Hbody; clear Hx
  end.
  cbn [fs] in Hlines, Hbody. rewrite lookup_insert_eq in Hlines, Hbody.
  destruct w3 as [files out tmp]. cbn [fs stdout next_tmp] in Hfs, Hout, Htmp.
  destruct (extracted (Some data) default_target_duration default_sr) as [features|].
  - subst lines. rewrite printed_nil in Hbody. unfold lift in Hbody.
    subst run. cbn [fst snd fs stdout next_tmp] in *.
    rewrite delete_insert_eq in Hfs. subst files out tmp.
    destruct (classify the_model the_scaler (config g) features) as [r|e].
    + injection Hrun as <- <-. exists []. rewrite app_nil_r. split; [reflexivity|].
      left. exists r. split; reflexivity.
    + unfold bind, print, raise in Hrun. cbn [fs stdout next_tmp] in Hrun.
      injection Hrun as <- <-.
      exists ["Prediction error: " +:+ str_exn e]. split; [reflexivity|].
      right. exists e, []. split; reflexivity.
  - destruct Hlines as (msg & ->). unfold raise at 1 in Hbody.
    subst run. cbn [fst snd fs stdout next_tmp printed] in *.
    rewrite delete_insert_eq in Hfs. subst files out tmp.
    unfold bind, print, raise in Hrun. cbn [fs stdout next_tmp] in Hrun.
    injection Hrun as <- <-.
    eexists. split; [rewrite <- app_assoc; reflexivity|].
    right. eexists (HTTPException 400 "Failed to extract audio features"), _.
    split; reflexivity.
Qed.

End Runs.

(** ** Requests *)

Section Answers.

Context {L : Librosa} {N : Numpy} {B : Base64}.

(** X4.  Whatever fails, [predict_cough] raises an HTTPException with
    status 503 or 500 and nothing else: 503 "ML model not loaded" exactly
    when the model or the scaler is [None], otherwise 500 with the detail
    "Prediction failed: " followed by the text of the exception that was
    caught.  No other status, 400 included, reaches the caller. *)
Theorem predict_cough_error_status g request w e :
  fst (predict_cough g request w) = Raise e ->
  (e = HTTPException 503 "ML model not loaded" /\
   (model g = None \/ scaler g = None)) \/
  (exists cause,
      e = HTTPException 500 ("Prediction failed: " +:+ str_exn cause) /\
      model g <> None /\ scaler g <> None).
Proof.
  rewrite predict_cough_response. unfold response.
  destruct (model g) as [the_model|];
    [|intros He; injection He as <-; left; auto].
  destruct (scaler g) as [the_scaler|];
    [|intros He; injection He as <-; left; auto].
  match goal with
  | |- match ?r with _ => _ end = _ -> _ => destruct r as [a|cause]
  end; [discriminate|].
  intros He. injection He as <-. right. exists cause. repeat split; discriminate.
Qed.

Lemma invalid_base64_run g request w the_model the_scaler e :
  model g = Some the_model -> scaler g = Some the_scaler ->
  b64decode (audio request) = Raise e ->
  predict_cough g request w
    = (Raise (HTTPException 500 ("Prediction failed: " +:+ str_exn e)),
       printed w ["Prediction error: " +:+ str_exn e]).
Proof.
  intros Hm Hs Hdata. unfold predict_cough. rewrite Hm, Hs.
  unfold try_except. unfold bind at 1, lift at 1. now rewrite Hdata.
Qed.

(** X5.  Audio that is not base64 is answered 500 with the text of the
    decoding error; one line is printed, no temporary file is written and
    the extraction is not attempted. *)
Theorem invalid_base64_answer g request w the_model the_scaler e :
  model g = Some the_model -> scaler g = Some the_scaler ->
  b64decode (audio request) = Raise e ->
  predict_cough g request w
    = (Raise (HTTPException 500 ("Prediction failed: " +:+ str_exn e)),
       printed w ["Prediction error: " +:+ str_exn e]).
Proof. apply invalid_base64_run. Qed.

(** X6.  A request that passes the guard and whose audio decodes leaves
    no temporary file behind, whether it is answered or fails: the files
    afterwards are the files before without the temporary name, so with a
    fresh temporary name they are the files before. *)
Theorem predict_cough_removes_temp_file g request w the_model the_scaler data :
  model g = Some the_model -> scaler g = Some the_scaler ->
  b64decode (audio request) = Ok data ->
  fs (snd (predict_cough g request w)) = delete (next_tmp w) (fs w) /\
  fs (snd (predict_cough g request w)) !! next_tmp w = None /\
  (fs w !! next_tmp w = None -> fs (snd (predict_cough g request w)) = fs w).
Proof.
  intros Hm Hs Hdata.
  destruct (predict_cough_world g request w _ _ _ Hm Hs Hdata) as (lines & -> & _).
  cbn [fs]. split; [reflexivity|]. split; [apply lookup_delete_eq|].
  intros Hfresh. now apply delete_id.
Qed.

(** X7.  A prediction prints nothing; a request answered 500 has printed,
    last, "Prediction error: " followed by the same text that follows
    "Prediction failed: " in the detail. *)
Theorem predict_cough_log g request w :
  (forall r w', predict_cough g request w = (Ok r, w') -> stdout w' = stdout w) /\
  (forall detail w',
      predict_cough g request w = (Raise (HTTPException 500 detail), w') ->
      exists text,
        detail = "Prediction failed: " +:+ text /\
        last (stdout w') = Some ("Prediction error: " +:+ text)).
Proof.
  destruct (model g) as [the_model|] eqn:Hm;
    [|split; intros ? ? Hrun; unfold predict_cough in Hrun; rewrite Hm in Hrun;
      discriminate].
  destruct (scaler g) as [the_scaler|] eqn:Hs;
    [|split; intros ? ? Hrun; unfold predict_cough in Hrun; rewrite Hm, Hs in Hrun;
      discriminate].
  destruct (b64decode (audio request)) as [data|e] eqn:Hdata.
  - destruct (predict_cough_world g request w _ _ _ Hm Hs Hdata)
      as (lines & Hw & Hcases).
    split.
    + intros r w' Hrun. rewrite Hrun in Hw, Hcases. cbn [fst snd] in Hw, Hcases.
      destruct Hcases as [(r' & _ & ->)|(cause & before & Hr & _)]; [|discriminate].
      subst w'. cbn [stdout]. apply app_nil_r.
    + intros detail w' Hrun. rewrite Hrun in Hw, Hcases. cbn [fst snd] in Hw, Hcases.
      destruct Hcases as [(r' & Hr & _)|(cause & before & Hr & ->)]; [discriminate|].
      injection Hr as ->. exists (str_exn cause). split; [reflexivity|].
      subst w'. cbn [stdout]. rewrite app_assoc. apply last_snoc.
  - rewrite (invalid_base64_run g request w _ _ _ Hm Hs Hdata). split.
    + intros r w' Hrun. discriminate.
    + intros detail w' Hrun. injection Hrun as <- <-.
      exists (str_exn e). split; [reflexivity|]. cbn [printed stdout]. apply last_snoc.
Qed.

End Answers.

(** ** Loading *)

Section Loading.

Context {A : Artifacts}.

(** What [load_models] does to the globals and what it returns, by the
    artifacts that load. *)
Lemma load_models_run g w :
  exists w',
    load_models g w
      = (Ok (match joblib_load_model model_path, joblib_load_scaler scaler_path,
                   json_load_file config_path with
             | Ok _, Ok _, Ok _ => true
             | _, _, _ => false
             end,
             {| model := match joblib_load_model model_path with
                         | Ok m => Some m
                         | Raise _ => model g
                         end;
                scaler := match joblib_load_model model_path,
                                joblib_load_scaler scaler_path with
                          | Ok _, Ok s => Some s
                          | _, _ => scaler g
                          end;
                config := match joblib_load_model model_path,
                                joblib_load_scaler scaler_path,
                                json_load_file config_path with
                          | Ok _, Ok _, Ok c => c
                          | _, _, _ => config g
                          end |}), w') /\
    fs w' = fs w /\ next_tmp w' = next_tmp w.
Proof.
  unfold load_models, model_path, scaler_path, config_path. cbv zeta.
  destruct g as [m0 s0 c0]. cbn [model scaler config].
  destruct (joblib_load_model _) as [m|e1];
    [|unfold bind, print, ret; eexists; split; [reflexivity|auto]].
  unfold bind at 1. unfold print at 1.
  destruct (joblib_load_scaler _) as [s|e2];
    [|unfold bind, print, ret; eexists; split; [reflexivity|auto]].
  unfold bind at 1. unfold print at 1.
  destruct (json_load_file _) as [c|e3];
    unfold bind, print, ret; eexists; split; try reflexivity; auto.
Qed.

(** X1.  [load_models] never raises and touches no file.  It returns
    [True] exactly when the three artifacts load, and then the three
    globals hold them.  On a failure the globals of the artifacts loaded
    before it are already assigned and every other global keeps the value
    it had: a failing model leaves all three untouched, and the
    artifacts after the failing one are not loaded. *)
Theorem load_models_outcome g w :
  exists ok g' w',
    load_models g w = (Ok (ok, g'), w') /\
    fs w' = fs w /\
    (ok = true <->
     exists m s c,
       joblib_load_model model_path = Ok m /\
       joblib_load_scaler scaler_path = Ok s /\
       json_load_file config_path = Ok c /\
       g' = {| model := Some m; scaler := Some s; config := c |}) /\
    (forall e, joblib_load_model model_path = Raise e -> g' = g) /\
    (forall m e,
        joblib_load_model model_path = Ok m ->
        joblib_load_scaler scaler_path = Raise e ->
        g' = {| model := Some m; scaler := scaler g; config := config g |}) /\
    (forall m s e,
        joblib_load_model model_path = Ok m ->
        joblib_load_scaler scaler_path = Ok s ->
        json_load_file config_path = Raise e ->
        g' = {| model := Some m; scaler := Some s; config := config g |}).
Proof.
  destruct (load_models_run g w) as (w' & Hrun & Hfs & _).
  do 3 eexists. split; [exact Hrun|]. split; [exact Hfs|].
  destruct g as [m0 s0 c0]. cbn [model scaler config].
  destruct (joblib_load_model model_path) as [m|e1];
    destruct (joblib_load_scaler scaler_path) as [s|e2];
    destruct (json_load_file config_path) as [c|e3];
    (split; [split; [intros Hok; try discriminate Hok; eauto 10
                    |intros (m' & s' & c' & Hm' & Hs' & Hc' & Hg'); try discriminate;
                     reflexivity]|]);
    (split; [intros e Hm'; try discriminate; reflexivity|]);
    (split; [intros m' e Hm' Hs'; try discriminate; injection Hm' as <-; reflexivity|]);
    intros m' s' e Hm' Hs' Hc'; try discriminate;
    injection Hm' as <-; injection Hs' as <-; reflexivity.
Qed.

(** X2.  Start-up from the initial globals never raises, and [/health]
    afterwards respects the order of loading: a loaded configuration
    implies a loaded scaler, a loaded scaler implies a loaded model, and
    the status is "healthy" exactly when the model file loaded. *)
Theorem startup_load_order w :
  exists g w',
    startup_event initial_globals w = (Ok g, w') /\
    (config_loaded (health g) = true -> scaler_loaded (health g) = true) /\
    (scaler_loaded (health g) = true -> model_loaded (health g) = true) /\
    (status (health g) = "healthy" <-> exists m, joblib_load_model model_path = Ok m).
Proof.
  unfold startup_event.
  unfold bind at 1. unfold print at 1.
  unfold bind at 1. unfold print at 1.
  unfold bind at 1. unfold print at 1.
  unfold bind at 1.
  match goal with
  | |- context [load_models initial_globals ?w0] =>
      destruct (load_models_run initial_globals w0) as (w1 & -> & _)
  end.
  cbn [model scaler config initial_globals].
  match goal with
  | |- context [bind ?c ?k ?w0] =>
      assert (Hend : exists w2, forall (g : Globals),
                 bind c (fun _ => bind (print banner) (fun _ => ret g)) w0 = (Ok g, w2))
  end.
  { destruct (joblib_load_model model_path), (joblib_load_scaler scaler_path),
      (json_load_file config_path);
      unfold bind, print, ret; cbn; eexists; intros; reflexivity. }
  destruct Hend as (w2 & Hend). do 2 eexists. split; [apply Hend|].
  unfold health. cbn [config_loaded scaler_loaded model_loaded status model scaler config].
  destruct (joblib_load_model model_path) as [m|e1];
    destruct (joblib_load_scaler scaler_path) as [s|e2];
    destruct (json_load_file config_path) as [c|e3]; cbn;
    (split; [auto; discriminate|]); (split; [auto; discriminate|]);
    (split; [intros Hs; try discriminate; eauto|intros [m' Hm']; try discriminate; auto]).
Qed.

Context {L : Librosa} {N : Numpy} {B : Base64}.

(** X3.  When the model loads and the scaler does not, start-up leaves
    the scaler and the configuration [None], the configuration file is
    not read, [/health] reports "healthy" with [scaler_loaded] false, and
    every request is refused 503 "ML model not loaded" with the world
    untouched: nothing is decoded, written or printed. *)
Theorem startup_without_scaler w the_model e :
  joblib_load_model model_path = Ok the_model ->
  joblib_load_scaler scaler_path = Raise e ->
  let g := {| model := Some the_model; scaler := None; config := JNull |} in
  fst (startup_event initial_globals w) = Ok g /\
  status (health g) = "healthy" /\
  scaler_loaded (health g) = false /\
  config_loaded (health g) = false /\
  forall request w2,
    predict_cough g request w2
      = (Raise (HTTPException 503 "ML model not loaded"), w2).
Proof.
  intros Hmodel Hscaler g.
  split.
  { unfold startup_event.
    unfold bind at 1. unfold print at 1.
    unfold bind at 1. unfold print at 1.
    unfold bind at 1. unfold print at 1.
    unfold bind at 1.
    match goal with
    | |- context [load_models initial_globals ?w0] =>
        destruct (load_models_run initial_globals w0) as (w1 & -> & _)
    end.
    rewrite Hmodel, Hscaler. reflexivity. }
  repeat split.
Qed.

End Loading.

(** ** The waveform and the feature list *)

Lemma pad_or_trim_Ok audio target_duration sr target_length :
  py_int (Float.mul target_duration (Float.of_int sr)) = Ok target_length ->
  pad_or_trim audio target_duration sr
    = Ok (if len audio <? target_length
          then audio ++ replicate (Z.to_nat (target_length - len audio)) Float.zero
          else py_slice_to audio target_length).
Proof.
  intros Hn. unfold pad_or_trim. rewrite Hn. cbn [result_bind].
  destruct (Z.ltb_spec (len audio) target_length) as [Hshort|Hlong]; [|reflexivity].
  unfold np_pad_right.
  destruct (Z.ltb_spec (target_length - len audio) 0) as [Hneg|_]; [lia|reflexivity].
Qed.

Lemma pad_or_trim_len audio target_duration sr target_length out :
  py_int (Float.mul target_duration (Float.of_int sr)) = Ok target_length ->
  0 <= target_length ->
  pad_or_trim audio target_duration sr = Ok out ->
  len out = target_length.
Proof.
  intros Hn Hpos Hout. rewrite (pad_or_trim_Ok _ _ _ _ Hn) in Hout.
  injection Hout as <-. unfold len, py_slice_to.
  destruct (Z.ltb_spec (Z.of_nat (length audio)) target_length) as [Hshort|Hlong].
  - rewrite length_app, length_replicate. lia.
  - destruct (Z.ltb_spec target_length 0) as [Hneg|_]; [lia|].
    rewrite length_take. lia.
Qed.

(** X10.  Normalising a waveform that is already normalised changes
    nothing: for a non-negative target length the pad-or-trim step is
    idempotent. *)
Theorem pad_or_trim_idempotent audio target_duration sr target_length out :
  py_int (Float.mul target_duration (Float.of_int sr)) = Ok target_length ->
  0 <= target_length ->
  pad_or_trim audio target_duration sr = Ok out ->
  pad_or_trim out target_duration sr = Ok out.
Proof.
  intros Hn Hpos Hout.
  pose proof (pad_or_trim_len _ _ _ _ _ Hn Hpos Hout) as Hlen.
  rewrite (pad_or_trim_Ok _ _ _ _ Hn).
  destruct (Z.ltb_spec (len out) target_length) as [Hshort|_]; [lia|].
  unfold py_slice_to.
  destruct (Z.ltb_spec target_length 0) as [Hneg|_]; [lia|].
  f_equal. apply take_ge. unfold len in Hlen. lia.
Qed.

(** X11.  A negative target length is not refused: nothing is padded and
    the slice [audio[:target_length]] drops the last samples, so the step
    returns the signal without its last [-target_length] samples, the
    empty signal when it is shorter than that, and not a signal of the
    target length. *)
Theorem pad_or_trim_negative_length audio target_duration sr target_length :
  py_int (Float.mul target_duration (Float.of_int sr)) = Ok target_length ->
  target_length < 0 ->
  pad_or_trim audio target_duration sr
    = Ok (take (Z.to_nat (len audio + target_length)) audio) /\
  (forall out, pad_or_trim audio target_duration sr = Ok out ->
               len out = Z.max 0 (len audio + target_length)).
Proof.
  intros Hn Hneg. rewrite (pad_or_trim_Ok _ _ _ _ Hn).
  assert (Hlen : 0 <= len audio) by (unfold len; lia).
  destruct (Z.ltb_spec (len audio) target_length) as [Hshort|_]; [lia|].
  unfold py_slice_to.
  destruct (Z.ltb_spec target_length 0) as [_|Hpos]; [|lia].
  split; [reflexivity|]. intros out Hout. injection Hout as <-.
  unfold len in *. rewrite length_take. lia.
Qed.

Section Waveform.

Context {L : Librosa} {N : Numpy}.

(** X13.  Whatever [librosa.load] returns for a file, nothing or more
    than was asked for, the waveform the transforms receive at the
    defaults of [extract_audio_features] has exactly 110250 samples. *)
Theorem default_waveform_length w path audio :
  waveform_of w path default_target_duration default_sr audio ->
  len audio = 110250.
Proof.
  intros (data & decoded & _ & _ & Hpad).
  eapply pad_or_trim_len; [|lia|exact Hpad]. vm_compute. reflexivity.
Qed.

Lemma mfcc_stat_Ok stat audio sr l :
  mfcc_stat stat audio sr = Ok l ->
  exists m, librosa_mfcc audio sr 13 = Ok m /\ np_axis1 stat m = Ok l.
Proof. unfold mfcc_stat. apply result_bind_Ok. Qed.

Lemma summary_of_Ok t l :
  summary_of t = Ok l ->
  exists m a b c d,
    t = Ok m /\
    np_all np_mean m = Ok a /\ np_all np_std m = Ok b /\
    np_all np_min m = Ok c /\ np_all np_max m = Ok d /\
    l = [a; b; c; d].
Proof.
  unfold summary_of, summary. intros Hl.
  apply result_bind_Ok in Hl as (m & Hm & Hl).
  apply result_bind_Ok in Hl as (a & Ha & Hl).
  apply result_bind_Ok in Hl as (b & Hb & Hl).
  apply result_bind_Ok in Hl as (c & Hc & Hl).
  apply result_bind_Ok in Hl as (d & Hd & Hl).
  injection Hl as <-. exists m, a, b, c, d. auto 10.
Qed.

(** X9.  The feature list is all or nothing: [compute_features] returns
    a vector exactly when the four MFCC statistics, the eight summaries
    and the tempo are all computed, and the vector is then their
    concatenation; when any one of them raises, no vector is
    returned. *)
Theorem compute_features_all_or_nothing audio sr v :
  compute_features audio sr = Ok v <->
  exists mfcc_mean mfcc_std mfcc_min mfcc_max
         centroid bandwidth rolloff zcr chroma contrast tonnetz rms tempo,
    mfcc_stat np_mean audio sr = Ok mfcc_mean /\
    mfcc_stat np_std audio sr = Ok mfcc_std /\
    mfcc_stat np_min audio sr = Ok mfcc_min /\
    mfcc_stat np_max audio sr = Ok mfcc_max /\
    summary_of (librosa_spectral_centroid audio sr) = Ok centroid /\
    summary_of (librosa_spectral_bandwidth audio sr) = Ok bandwidth /\
    summary_of (librosa_spectral_rolloff audio sr) = Ok rolloff /\
    summary_of (librosa_zero_crossing_rate audio) = Ok zcr /\
    summary_of (librosa_chroma_stft audio sr) = Ok chroma /\
    summary_of (librosa_spectral_contrast audio sr) = Ok contrast /\
    summary_of (librosa_tonnetz audio sr) = Ok tonnetz /\
    summary_of (librosa_rms audio) = Ok rms /\
    tempo_of audio sr = Ok tempo /\
    v = mfcc_mean ++ mfcc_std ++ mfcc_min ++ mfcc_max ++
        centroid ++ bandwidth ++ rolloff ++ zcr ++
        chroma ++ contrast ++ tonnetz ++ rms ++ [tempo].
Proof.
  split; [apply compute_features_layout|].
  intros (mm & ms & mn & mx & c1 & c2 & c3 & c4 & c5 & c6 & c7 & c8 & tempo &
          Hmm & Hms & Hmn & Hmx & H1 & H2 & H3 & H4 & H5 & H6 & H7 & H8 &
          Htempo & ->).
  apply mfcc_stat_Ok in Hmm as (m & Hm & Hmm).
  apply mfcc_stat_Ok in Hms as (m' & Hm' & Hms).
  rewrite Hm in Hm'. injection Hm' as <-.
  apply mfcc_stat_Ok in Hmn as (m' & Hm' & Hmn).
  rewrite Hm in Hm'. injection Hm' as <-.
  apply mfcc_stat_Ok in Hmx as (m' & Hm' & Hmx).
  rewrite Hm in Hm'. injection Hm' as <-.
  apply summary_of_Ok in H1 as (t1 & a1 & b1 & d1 & e1 & Ht1 & Ha1 & Hb1 & Hd1 & He1 & ->).
  apply summary_of_Ok in H2 as (t2 & a2 & b2 & d2 & e2 & Ht2 & Ha2 & Hb2 & Hd2 & He2 & ->).
  apply summary_of_Ok in H3 as (t3 & a3 & b3 & d3 & e3 & Ht3 & Ha3 & Hb3 & Hd3 & He3 & ->).
  apply summary_of_Ok in H4 as (t4 & a4 & b4 & d4 & e4 & Ht4 & Ha4 & Hb4 & Hd4 & He4 & ->).
  apply summary_of_Ok in H5 as (t5 & a5 & b5 & d5 & e5 & Ht5 & Ha5 & Hb5 & Hd5 & He5 & ->).
  apply summary_of_Ok in H6 as (t6 & a6 & b6 & d6 & e6 & Ht6 & Ha6 & Hb6 & Hd6 & He6 & ->).
  apply summary_of_Ok in H7 as (t7 & a7 & b7 & d7 & e7 & Ht7 & Ha7 & Hb7 & Hd7 & He7 & ->).
  apply summary_of_Ok in H8 as (t8 & a8 & b8 & d8 & e8 & Ht8 & Ha8 & Hb8 & Hd8 & He8 & ->).
  unfold tempo_of in Htempo. apply result_bind_Ok in Htempo as (tb & Htb & Htempo).
  injection Htempo as <-.
  unfold compute_features.
  rewrite Hm. cbn [result_bind]. rewrite Hmm, Hms, Hmn, Hmx. cbn [result_bind].
  rewrite Ht1. cbn [result_bind]. rewrite Ha1, Hb1, Hd1, He1. cbn [result_bind].
  rewrite Ht2. cbn [result_bind]. rewrite Ha2, Hb2, Hd2, He2. cbn [result_bind].
  rewrite Ht3. cbn [result_bind]. rewrite Ha3, Hb3, Hd3, He3. cbn [result_bind].
  rewrite Ht4. cbn [result_bind]. rewrite Ha4, Hb4, Hd4, He4. cbn [result_bind].
  rewrite Ht5. cbn [result_bind]. rewrite Ha5, Hb5, Hd5, He5. cbn [result_bind].
  rewrite Ht6. cbn [result_bind]. rewrite Ha6, Hb6, Hd6, He6. cbn [result_bind].
  rewrite Ht7. cbn [result_bind]. rewrite Ha7, Hb7, Hd7, He7. cbn [result_bind].
  rewrite Ht8. cbn [result_bind]. rewrite Ha8, Hb8, Hd8, He8. cbn [result_bind].
  rewrite Htb. cbn [result_bind].
  unfold extend, append. rewrite <- !app_assoc. reflexivity.
Qed.

End Waveform.

(** ** The label and the confidence *)

Section Labels.

Context {L : Librosa} {N : Numpy} {B : Base64}.

(** X14.  When the label map has no entry for the predicted class, no
    label is guessed: the classification step raises the KeyError of the
    lookup, before the probability is read, and the request is answered
    500 with the missing key, quoted, as the text. *)
Theorem missing_label_answer
    g request w the_model the_scaler data features X prediction proba
    (the_config : gmap string json) (label_mapping : gmap string json) :
  model g = Some the_model -> scaler g = Some the_scaler ->
  config g = JObject the_config ->
  the_config !! "label_mapping" = Some (JObject label_mapping) ->
  b64decode (audio request) = Ok data ->
  extracted (Some data) default_target_duration default_sr = Some features ->
  transform the_scaler [features] = Ok X ->
  classified the_model X prediction proba ->
  label_mapping !! str_int prediction = None ->
  classify the_model the_scaler (config g) features
    = Raise (Exception "KeyError" ("'" +:+ str_int prediction +:+ "'")) /\
  fst (predict_cough g request w)
    = Raise (HTTPException 500
               ("Prediction failed: '" +:+ str_int prediction +:+ "'")).
Proof.
  intros Hm Hs Hc Hmap Hdata Hfeat HX (predictions & probabilities & Hp & Hi & Hq & Hj)
         Hmissing.
  assert (Hclass : classify the_model the_scaler (config g) features
                   = Raise (Exception "KeyError" ("'" +:+ str_int prediction +:+ "'"))).
  { unfold classify. rewrite HX. cbn [result_bind]. rewrite Hp. cbn [result_bind].
    rewrite Hi. cbn [result_bind]. rewrite Hq. cbn [result_bind].
    rewrite Hj. cbn [result_bind]. rewrite Hc. unfold py_getitem at 1. rewrite Hmap.
    cbn [result_bind]. unfold py_getitem. rewrite Hmissing. reflexivity. }
  split; [exact Hclass|].
  rewrite predict_cough_response. unfold response.
  rewrite Hm, Hs, Hdata. cbn [result_bind]. rewrite Hfeat, Hclass. reflexivity.
Qed.

(** X16.  The probability is read at the position given by the class
    label itself.  When the label is not a position of the probability
    vector, the request is answered 500 with the IndexError of the
    lookup, although the label map has an entry for the class. *)
Theorem confidence_index_out_of_range
    g request w the_model the_scaler data features X prediction proba
    label_mapping label :
  model g = Some the_model -> scaler g = Some the_scaler ->
  b64decode (audio request) = Ok data ->
  extracted (Some data) default_target_duration default_sr = Some features ->
  transform the_scaler [features] = Ok X ->
  classified the_model X prediction proba ->
  py_getitem (config g) "label_mapping" = Ok label_mapping ->
  py_getitem label_mapping (str_int prediction) = Ok label ->
  len proba <= prediction \/ prediction < - len proba ->
  fst (predict_cough g request w)
    = Raise (HTTPException 500
               ("Prediction failed: index " +:+ str_int prediction +:+
                " is out of bounds for axis 0 with size " +:+ str_int (len proba))).
Proof.
  intros Hm Hs Hdata Hfeat HX (predictions & probabilities & Hp & Hi & Hq & Hj)
         Hmap Hlabel Hrange.
  assert (Hindex : py_index proba prediction = Raise (index_error proba prediction)).
  { unfold py_index.
    assert (Hlen : 0 <= len proba) by (unfold len; lia).
    destruct (Z.ltb_spec prediction 0) as [Hneg|Hpos].
    - destruct (Z.ltb_spec (len proba + prediction) 0) as [_|Hin]; [reflexivity|lia].
    - destruct (Z.ltb_spec prediction 0) as [Hneg|_]; [lia|].
      destruct (Z.leb_spec (len proba) prediction) as [_|Hin]; [reflexivity|lia]. }
  rewrite predict_cough_response. unfold response.
  rewrite Hm, Hs, Hdata. cbn [result_bind]. rewrite Hfeat.
  unfold classify. rewrite HX. cbn [result_bind]. rewrite Hp. cbn [result_bind].
  rewrite Hi. cbn [result_bind]. rewrite Hq. cbn [result_bind].
  rewrite Hj. cbn [result_bind]. rewrite Hmap. cbn [result_bind].
  rewrite Hlabel. cbn [result_bind]. rewrite Hindex. reflexivity.
Qed.

End Labels.

Module FloatShapeFacts.
Import Float FloatRange FloatShape.

Lemma round2_small_two_decimals x : small x -> two_decimals (round2 x).
Proof.
  destruct x as [s|s| |[] m e]; simpl; try contradiction.
  - intros _. left. eauto.
  - intros [He Hm]. destruct e as [|k|k]; try lia.
    pose proof (FloatFacts.round_half_even_bound (Zpos m * 100) k 10000) as Hb.
    change (- Zneg k) with (Zpos k) in Hm.
    destruct (round_half_even (Zpos m * 100) k) as [|n|n].
    + left. eauto.
    + right. exists n. split; [lia|reflexivity].
    + lia.
Qed.

End FloatShapeFacts.

Section Decimals.

Context {L : Librosa} {N : Numpy} {B : Base64}.

(** X15.  When the probabilities are doubles of [0, 1], the confidence
    of a prediction has two decimals: it is a zero or the double nearest
    to [n / 100] for an integer [n] from 1 to 10000. *)
Theorem confidence_two_decimals g request w r w' :
  predict_cough g request w = (Ok r, w') ->
  exists the_model X prediction proba,
    model g = Some the_model /\
    classified the_model X prediction proba /\
    (Forall FloatRange.probability proba ->
     FloatShape.two_decimals (confidence_score r)).
Proof.
  intros Hrun.
  apply predict_cough_Ok in Hrun
    as (the_model & _ & _ & X & prediction & proba & p &
        Hm & _ & _ & Hcl & _ & Hp & Hconf).
  exists the_model, X, prediction, proba.
  do 2 (split; [assumption|]).
  intros Hall.
  assert (Hprob : FloatRange.probability p).
  { unfold py_index in Hp.
    destruct ((_ <? 0) || _); [discriminate|].
    destruct (proba !! _) as [x|] eqn:Hx; [|discriminate].
    injection Hp as <-.
    rewrite Forall_forall in Hall. apply Hall.
    eapply list_elem_of_lookup_2, Hx. }
  rewrite Hconf.
  apply FloatShapeFacts.round2_small_two_decimals, FloatFacts.mul_hundred_small, Hprob.
Qed.

End Decimals.

(** ** The further properties on the small instance *)

Module MoreExamples.

Import Demo Cases.

(** With the scaler file missing every request is refused 503 and the
    world is untouched. *)
Lemma startup_without_scaler_witness :
  joblib_load_model (Artifacts := artifacts_without_scaler) model_path = Ok classifier /\
  fst (startup_event (A := artifacts_without_scaler) initial_globals world)
    = Ok without_scaler /\
  predict_cough without_scaler request world
    = (Raise (HTTPException 503 "ML model not loaded"), world).
Proof.
  pose proof (startup_without_scaler (A := artifacts_without_scaler) world classifier
                (Exception "FileNotFoundError"
                   ("[Errno 2] No such file or directory: '" +:+ scaler_path +:+ "'"))
                eq_refl eq_refl) as Hstart.
  cbv zeta in Hstart. destruct Hstart as (Hevent & _ & _ & _ & Hrefused).
  split; [reflexivity|]. split; [exact Hevent|]. apply Hrefused.
Defined.

Lemma demo_failure :
  fst (predict_cough ready empty_request world)
    = Raise (HTTPException 500 "Prediction failed: 400: Failed to extract audio features").
Proof. vm_compute. reflexivity. Defined.

(** An empty recording is answered 500: the model and the scaler are
    loaded. *)
Lemma predict_cough_error_status_witness :
  fst (predict_cough ready empty_request world)
    = Raise (HTTPException 500 "Prediction failed: 400: Failed to extract audio features") /\
  model ready <> None /\ scaler ready <> None.
Proof.
  split; [exact demo_failure|].
  destruct (predict_cough_error_status ready empty_request world _ demo_failure)
    as [[He _]|(cause & _ & Hm & Hs)]; [discriminate He|auto].
Defined.

(** The text "abc" is not base64. *)
Lemma invalid_base64_answer_witness :
  b64decode (audio malformed_request) = Raise padding_error /\
  predict_cough ready malformed_request world
    = (Raise (HTTPException 500 "Prediction failed: Incorrect padding"),
       printed world ["Prediction error: Incorrect padding"]).
Proof.
  split; [reflexivity|].
  exact (invalid_base64_answer ready malformed_request world classifier
           (fitted_scaler scaler_state) padding_error eq_refl eq_refl eq_refl).
Defined.

(** After the request of three bytes no temporary file is left. *)
Lemma predict_cough_removes_temp_file_witness :
  b64decode (audio request) = Ok request_data /\
  fs world !! next_tmp world = None /\
  fs (snd (predict_cough ready request world)) = fs world.
Proof.
  assert (Hdata : b64decode (audio request) = Ok request_data) by reflexivity.
  split; [exact Hdata|]. split; [reflexivity|].
  destruct (predict_cough_removes_temp_file ready request world classifier
              (fitted_scaler scaler_state) request_data eq_refl eq_refl Hdata)
    as (_ & _ & Hfresh).
  apply Hfresh. reflexivity.
Defined.

(** A signal of three samples, normalised at the defaults, is not changed
    by a second normalisation. *)
Lemma pad_or_trim_idempotent_witness :
  py_int (Float.mul Float.five (Float.of_int 22050)) = Ok 110250 /\
  0 <= 110250 /\
  forall out,
    pad_or_trim [Float.one; Float.zero; Float.one] Float.five 22050 = Ok out ->
    pad_or_trim out Float.five 22050 = Ok out.
Proof.
  assert (Hn : py_int (Float.mul Float.five (Float.of_int 22050)) = Ok 110250)
    by (vm_compute; reflexivity).
  split; [exact Hn|]. split; [lia|].
  intros out Hout.
  exact (pad_or_trim_idempotent _ _ _ _ _ Hn ltac:(lia) Hout).
Defined.

(** At a duration of -5.0 seconds a signal of three samples becomes the
    empty signal. *)
Lemma pad_or_trim_negative_length_witness :
  py_int (Float.mul minus_five (Float.of_int 22050)) = Ok (-110250) /\
  -110250 < 0 /\
  pad_or_trim [Float.one; Float.zero; Float.one] minus_five 22050 = Ok [].
Proof.
  assert (Hn : py_int (Float.mul minus_five (Float.of_int 22050)) = Ok (-110250))
    by (vm_compute; reflexivity).
  split; [exact Hn|]. split; [lia|].
  exact (proj1 (pad_or_trim_negative_length [Float.one; Float.zero; Float.one]
                  minus_five 22050 (-110250) Hn ltac:(lia))).
Defined.

(** The recording on disk in [other_world], padded to the defaults. *)
Lemma default_waveform_length_witness :
  waveform_of other_world "/tmp/old.webm" default_target_duration default_sr
    (map sample_of_byte [Byte.x03; Byte.x01; Byte.x02]
       ++ replicate (Z.to_nat (110250 - 3)) Float.zero) /\
  len (map sample_of_byte [Byte.x03; Byte.x01; Byte.x02]
         ++ replicate (Z.to_nat (110250 - 3)) Float.zero) = 110250.
Proof.
  assert (Hw : waveform_of other_world "/tmp/old.webm" default_target_duration default_sr
                 (map sample_of_byte [Byte.x03; Byte.x01; Byte.x02]
                    ++ replicate (Z.to_nat (110250 - 3)) Float.zero)).
  { exists [Byte.x03; Byte.x01; Byte.x02], (map sample_of_byte [Byte.x03; Byte.x01; Byte.x02]).
    split; [reflexivity|]. split; [reflexivity|].
    rewrite (pad_or_trim_Ok _ _ _ 110250) by (vm_compute; reflexivity).
    reflexivity. }
  split; [exact Hw|].
  exact (default_waveform_length _ _ _ Hw).
Defined.

Lemma demo_classified_1 :
  classified classifier request_scaled 1 [f0_12; f0_88].
Proof. exists [1], [[f0_12; f0_88]]. repeat split. Defined.

(** The label map has no entry for class 1. *)
Lemma missing_label_answer_witness :
  dry_only !! str_int 1 = None /\
  fst (predict_cough ready_dry_only request world)
    = Raise (HTTPException 500 "Prediction failed: '1'").
Proof.
  assert (Hmissing : dry_only !! str_int 1 = None) by (vm_compute; reflexivity).
  split; [exact Hmissing|].
  assert (Hfeat : extracted (Some request_data) default_target_duration default_sr
                  = Some request_features) by (vm_compute; reflexivity).
  assert (HX : transform (fitted_scaler scaler_state) [request_features]
               = Ok request_scaled) by (vm_compute; reflexivity).
  assert (Hmap : (<["label_mapping" := JObject dry_only]> ∅ : gmap string json)
                   !! "label_mapping" = Some (JObject dry_only))
    by apply lookup_insert_eq.
  assert (Hdata : b64decode (audio request) = Ok request_data) by reflexivity.
  rewrite (proj2 (missing_label_answer ready_dry_only request world classifier
                    (fitted_scaler scaler_state) request_data request_features
                    request_scaled 1 [f0_12; f0_88] _ dry_only
                    eq_refl eq_refl eq_refl Hmap Hdata Hfeat HX demo_classified_1
                    Hmissing)).
  vm_compute. reflexivity.
Defined.

Lemma demo_classified_2 :
  classified classifier_class2 request_scaled 2 [f0_12; f0_88].
Proof. exists [2], [[f0_12; f0_88]]. repeat split. Defined.

(** Class 2 has a label, and the probability vector has two entries. *)
Lemma confidence_index_out_of_range_witness :
  py_getitem (JObject labels_1_2) (str_int 2) = Ok (JString "wet") /\
  len [f0_12; f0_88] <= 2 /\
  fst (predict_cough ready_class2 request world)
    = Raise (HTTPException 500
               "Prediction failed: index 2 is out of bounds for axis 0 with size 2").
Proof.
  assert (Hlabel : py_getitem (JObject labels_1_2) (str_int 2) = Ok (JString "wet"))
    by (vm_compute; reflexivity).
  split; [exact Hlabel|]. split; [vm_compute; discriminate|].
  assert (Hfeat : extracted (Some request_data) default_target_duration default_sr
                  = Some request_features) by (vm_compute; reflexivity).
  assert (HX : transform (fitted_scaler scaler_state) [request_features]
               = Ok request_scaled) by (vm_compute; reflexivity).
  assert (Hmap : py_getitem (config ready_class2) "label_mapping" = Ok (JObject labels_1_2)).
  { cbn [config ready_class2 py_getitem]. now rewrite lookup_insert_eq. }
  assert (Hdata : b64decode (audio request) = Ok request_data) by reflexivity.
  assert (Hrange : len [f0_12; f0_88] <= 2 \/ 2 < - len [f0_12; f0_88])
    by (left; vm_compute; discriminate).
  rewrite (confidence_index_out_of_range ready_class2 request world classifier_class2
             (fitted_scaler scaler_state) request_data request_features
             request_scaled 2 [f0_12; f0_88] _ _
             eq_refl eq_refl Hdata Hfeat HX demo_classified_2 Hmap Hlabel Hrange).
  vm_compute. reflexivity.
Defined.

Lemma demo_run_world :
  predict_cough ready request world = (Ok wet_response, world).
Proof. vm_compute. reflexivity. Defined.

Lemma demo_probability_vector the_model X prediction proba :
  model ready = Some the_model ->
  classified the_model X prediction proba ->
  proba = [f0_12; f0_88].
Proof.
  intros Hm (predictions & probabilities & Hp & Hi & Hq & Hj).
  injection Hm as <-. cbn in Hq. injection Hq as <-.
  destruct X as [|row rows]; [discriminate Hj|].
  cbn in Hj. now injection Hj as <-.
Defined.

(** The confidence 88.0 has two decimals. *)
Lemma confidence_two_decimals_witness :
  predict_cough ready request world = (Ok wet_response, world) /\
  FloatShape.two_decimals (confidence_score wet_response).
Proof.
  split; [exact demo_run_world|].
  destruct (confidence_two_decimals _ _ _ _ _ demo_run_world)
    as (the_model & X & prediction & proba & Hm & Hcl & Htwo).
  rewrite (demo_probability_vector _ _ _ _ Hm Hcl) in Htwo.
  apply Htwo. repeat constructor.
Defined.

End MoreExamples.
